(** * Weekly-hours dashboard (main.py): data pipeline and click handling

    A shallow embedding of the pure parts of [main.py]: the country
    table, the two acquisition paths and their fallback, the wide-to-long
    pivot, the binning used by the map, the default year and the
    extraction of the clicked country from the chart event.

    pandas, Streamlit and Altair are external libraries.  Their calls are
    modelled by what they do on the arguments the program passes them;
    each such definition says which call it stands for. *)

From Stdlib Require Import ZArith QArith Lqa List Lia Bool Ascii String.
From stdpp Require Import base option list strings gmap.

Local Open Scope string_scope.
Local Open Scope list_scope.
Local Open Scope Z_scope.

(** ** Exceptions and fallible computations *)

(** The exception classes the modelled code can raise.  All of them derive
    from Python's [Exception], which is what [main] catches. *)
Inductive exn : Type :=
  | RuntimeError (msg : string)
  | KeyError (key : string)
  | ValueError (msg : string)
  | AttributeError (msg : string)
  | TypeError (msg : string)
  | OverflowError (msg : string)
  | OtherError (msg : string).

Inductive result (A : Type) : Type :=
  | Ok (a : A)
  | Raise (e : exn).
Arguments Ok {A} a.
Arguments Raise {A} e.

#[global] Instance result_ret : MRet result := fun A a => Ok a.
#[global] Instance result_bind : MBind result := fun A B k r =>
  match r with
  | Ok a => k a
  | Raise e => Raise e
  end.

Definition raises {A : Type} (r : result A) : Prop :=
  match r with Ok _ => False | Raise _ => True end.

(** ** Cells of a table *)

(** A cell of a pandas column: a missing value (NaN / None), a string, an
    integer or a float.  A finite float is the rational number it denotes;
    the only float operations the program performs are comparisons with
    integer constants, which are exact. *)
Inductive value : Type :=
  | VNull
  | VStr (s : string)
  | VInt (z : Z)
  | VFloat (q : Q).

Definition isna (v : value) : bool :=
  match v with VNull => true | _ => false end.

#[global] Instance Q_eq_dec : EqDecision Q.
Proof. solve_decision. Defined.
#[global] Instance value_eq_dec : EqDecision value.
Proof. solve_decision. Defined.

(** ** Country table *)

(** The entries of the [code_to_country] literal, in source order. *)
Definition code_to_country_items : list (string * string) :=
  [ ("BE", "Belgium"); ("BG", "Bulgaria"); ("CZ", "Czechia");
    ("DK", "Denmark"); ("DE", "Germany"); ("EE", "Estonia");
    ("IE", "Ireland"); ("GR", "Greece"); ("ES", "Spain");
    ("FR", "France"); ("HR", "Croatia"); ("IT", "Italy");
    ("CY", "Cyprus"); ("LV", "Latvia"); ("LT", "Lithuania");
    ("LU", "Luxembourg"); ("HU", "Hungary"); ("MT", "Malta");
    ("NL", "Netherlands"); ("AT", "Austria"); ("PL", "Poland");
    ("PT", "Portugal"); ("RO", "Romania"); ("SI", "Slovenia");
    ("SK", "Slovakia"); ("FI", "Finland"); ("SE", "Sweden");
    ("IS", "Iceland"); ("NO", "Norway"); ("CH", "Switzerland");
    ("GB", "United Kingdom"); ("BA", "Bosnia and Herzegovina");
    ("ME", "Montenegro");
    ("MK", "North Macedonia"); ("RS", "Serbia"); ("TR", "Türkiye") ].

(** A dict display [{k1: v1, k2: v2, ...}] stores the pairs from left to
    right, a later pair replacing an earlier one with the same key. *)
Definition dict_of_items (items : list (string * string)) : gmap string string :=
  foldl (fun d kv => <[kv.1 := kv.2]> d) ∅ items.

Definition code_to_country : gmap string string :=
  dict_of_items code_to_country_items.

(** The loop of [rename_countries] that reverses a dict:
    [for k, v in d.items(): new_dict[v] = k]. *)
Definition reverse_items (items : list (string * string)) : gmap string string :=
  foldl (fun d kv => <[kv.2 := kv.1]> d) ∅ items.

Definition new_dict : gmap string string :=
  reverse_items code_to_country_items.

Definition code_to_name (code : string) : option string := code_to_country !! code.
Definition name_to_code (name : string) : option string := new_dict !! name.

#[global] Arguments code_to_country : simpl never.
#[global] Arguments new_dict : simpl never.

(** ** Binning of the map *)

Definition bins : list Q := [10; 20; 30; 35; 40; 45; 60]%Q.
Definition labels : list string :=
  ["10-20"; "21-30"; "31-35"; "36-40"; "41-45"; "46-60"].
Definition color_domain : list string := "No data" :: labels.

(** [numpy.searchsorted(a, x, side='left')] on an increasing array: the
    number of entries of [a] that are strictly below [x]. *)
Fixpoint searchsorted_left (a : list Q) (x : Q) : nat :=
  match a with
  | [] => 0%nat
  | b :: a' => if Qle_bool x b then 0%nat else S (searchsorted_left a' x)
  end.

(** [pandas.cut(x, bins=edges, labels=names, include_lowest=..., right=True)]
    on one entry [x] of the series ([None] is NaN).  The entry gets the
    index of the first edge that is not below it; an entry equal to the
    lowest edge is moved into the first bin when [include_lowest] is set;
    index 0 and index [len(edges)] are outside every bin and give NaN. *)
Definition cut (edges : list Q) (names : list string) (include_lowest : bool)
    (x : option Q) : option string :=
  match x with
  | None => None
  | Some h =>
      let ids := searchsorted_left edges h in
      let ids :=
        match edges with
        | e0 :: _ => if include_lowest && Qeq_bool h e0 then 1%nat else ids
        | [] => ids
        end in
      if (ids =? 0)%nat || (ids =? length edges)%nat then None
      else names !! (ids - 1)%nat
  end.

Definition hours_bin (h : option Q) : option string :=
  cut bins labels true h.

(** The Vega expression of [plot_map_value]:
    [isValid(datum.hours_bin) ? datum.hours_bin : 'No data']. *)
Definition hours_bin_display (h : option Q) : string :=
  match hours_bin h with
  | Some l => l
  | None => "No data"
  end.

(** ** Tables *)

(** A pandas [DataFrame] with the default integer index: its columns in
    order, each with its label and its entries. *)
Definition DataFrame : Type := list (string * list value).

Definition column_names (df : DataFrame) : list string := df.*1.

(** [len(df)] *)
Definition nrows (df : DataFrame) : nat :=
  match df with
  | [] => 0%nat
  | (_, c) :: _ => length c
  end.

(** Every column has one entry per row and no label occurs twice. *)
Definition well_formed (df : DataFrame) : Prop :=
  NoDup (column_names df) /\ Forall (fun c => length c.2 = nrows df) df.

(** [df[name]] for a label that names one column of the table: that
    column, and a [KeyError] when no column has the label.  (When several
    columns share the label pandas returns a table, not a column; the
    statements below that depend on this assume distinct labels.) *)
Fixpoint getitem (df : DataFrame) (name : string) : result (list value) :=
  match df with
  | [] => Raise (KeyError name)
  | (n, c) :: df' => if String.eqb n name then Ok c else getitem df' name
  end.

(** [df[name] = col]: an existing column is replaced where it stands, a
    new one is added after the last column. *)
Fixpoint setitem (df : DataFrame) (name : string) (col : list value) : DataFrame :=
  match df with
  | [] => [(name, col)]
  | (n, c) :: df' =>
      if String.eqb n name then (n, col) :: df'
      else (n, c) :: setitem df' name col
  end.

Definition mem (name : string) (names : list string) : bool :=
  existsb (String.eqb name) names.

Definition has_column (df : DataFrame) (name : string) : bool :=
  mem name (column_names df).

(** [df.drop(columns=names)]: a label that is not a column is a [KeyError]. *)
Definition drop (df : DataFrame) (names : list string) : result DataFrame :=
  match List.find (fun n => negb (has_column df n)) names with
  | Some n => Raise (KeyError n)
  | None => Ok (List.filter (fun c => negb (mem c.1 names)) df)
  end.

(** [df.rename(columns={old: new})]: a label that is not a column is left
    alone without an error. *)
Definition rename (df : DataFrame) (old new : string) : DataFrame :=
  List.map (fun c => if String.eqb c.1 old then (new, c.2) else c) df.

(** Boolean indexing: the entries of [l] whose mask is [true]. *)
Fixpoint select {A : Type} (mask : list bool) (l : list A) : list A :=
  match mask, l with
  | b :: mask', x :: l' => if b then x :: select mask' l' else select mask' l'
  | _, _ => []
  end.

Definition select_rows (mask : list bool) (df : DataFrame) : DataFrame :=
  List.map (fun c => (c.1, select mask c.2)) df.

(** [df.dropna(subset=[name])] *)
Definition dropna (df : DataFrame) (name : string) : result DataFrame :=
  col ← getitem df name;
  Ok (select_rows (List.map (fun v => negb (isna v)) col) df).

(** [series.map(d)] for a dict [d]: an entry that is not a key of [d]
    becomes NaN. *)
Definition map_value (d : gmap string string) (v : value) : value :=
  match v with
  | VStr k => match d !! k with Some x => VStr x | None => VNull end
  | _ => VNull
  end.

Definition series_map (d : gmap string string) (s : list value) : list value :=
  List.map (map_value d) s.

(** ** Acquisition *)

(** What the page shows besides its charts. *)
Inductive ui : Type :=
  | UiError (msg : string)
  | UiWarning (msg : string).

Definition dimension_columns : list string :=
  ["freq"; "isco08"; "wstatus"; "worktime"; "age"; "unit"; "sex"].

(** [download_data()].  [response] is the outcome of
    [get_data_df('tps00071')]: an exception, [None] or a table.  The
    result comes with the messages written to the page.  The
    [st.cache_data] decorator decides how often the body runs, not what
    it returns, and is left out. *)
Definition download_data (response : result (option DataFrame))
    : list ui * result DataFrame :=
  match response with
  | Raise e => ([], Raise e)
  | Ok None =>
      ([UiError "Couldn't load Eurostat data right now."],
       Raise (RuntimeError "Eurostat returned no data"))
  | Ok (Some df) =>
      ([], df ← drop df dimension_columns;
           Ok (rename df "geo\TIME_PERIOD" "ISO2"))
  end.

Definition local_columns : list string :=
  ["country"; "2015"; "2016"; "2017"; "2018"; "2019"; "2020"; "2021";
   "2022"; "2023"; "2024"].

(** [read_data()].  [sheet] is the outcome of the [pd.read_excel] call: an
    exception or the columns of the data rows, without labels
    ([header=None]).  Assigning [df.columns] a list of another length is a
    [ValueError]. *)
Definition read_data (sheet : result (list (list value))) : result DataFrame :=
  cols ← sheet;
  if (length cols =? length local_columns)%nat
  then Ok (zip local_columns cols)
  else Raise (ValueError "Length mismatch").

Definition rename_countries (df : DataFrame) (data_local : bool) : result DataFrame :=
  if negb data_local then
    iso ← getitem df "ISO2";
    dropna (setitem df "country" (series_map code_to_country iso)) "country"
  else
    names ← getitem df "country";
    Ok (setitem df "ISO2" (series_map new_dict names)).

Definition fallback_warning : ui :=
  UiWarning "Eurostat is offline — using local cached Excel data.".

(** The acquisition block of [main]: the [try] / [except Exception] around
    the two paths and the warning that follows it.  The result is the
    table together with [used_fallback]. *)
Definition main_acquire (response : result (option DataFrame))
    (sheet : result (list (list value)))
    : list ui * result (DataFrame * bool) :=
  let '(log, downloaded) := download_data response in
  match df ← downloaded; rename_countries df false with
  | Ok df => (log, Ok (df, false))
  | Raise _ =>
      match df ← read_data sheet; rename_countries df true with
      | Ok df => (log ++ [fallback_warning], Ok (df, true))
      | Raise e => (log, Raise e)
      end
  end.

(** ** Wide to long *)

Definition is_space (c : ascii) : bool :=
  let n := nat_of_ascii c in
  ((9 <=? n) && (n <=? 13) || (n =? 32))%nat.

Definition digit_of (c : ascii) : option Z :=
  let n := nat_of_ascii c in
  if ((48 <=? n) && (n <=? 57))%nat then Some (Z.of_nat n - 48) else None.

(** The digits of an integer literal: at least one digit, single
    underscores allowed between digits only. *)
Fixpoint digits_value (acc : Z) (after_digit : bool) (l : list ascii) : option Z :=
  match l with
  | [] => if after_digit then Some acc else None
  | c :: l' =>
      match digit_of c with
      | Some d => digits_value (10 * acc + d) true l'
      | None =>
          if Ascii.eqb c "_" && after_digit then digits_value acc false l'
          else None
      end
  end.

Fixpoint lstrip (l : list ascii) : list ascii :=
  match l with
  | c :: l' => if is_space c then lstrip l' else l
  | [] => []
  end.

(** [int(s)] for a string of ASCII characters: surrounding white space,
    an optional sign, decimal digits.  [None] stands for [ValueError].
    Python also reads the decimal digits and the white space of other
    scripts; a statement that depends on a label being rejected is made
    for ASCII labels ([is_ascii]). *)
Definition py_int (s : string) : option Z :=
  let l := rev (lstrip (rev (lstrip (list_ascii_of_string s)))) in
  match l with
  | "-"%char :: l' => Z.opp <$> digits_value 0 false l'
  | "+"%char :: l' => digits_value 0 false l'
  | _ => digits_value 0 false l
  end.

#[global] Arguments py_int : simpl never.


(** The integers an [int64] entry can hold. *)
Definition in_int64 (z : Z) : bool := (- 2 ^ 63 <=? z) && (z <? 2 ^ 63).

Definition int64_of (z : Z) : result value :=
  if in_int64 z then Ok (VInt z)
  else Raise (OverflowError "Python int too large to convert to C long").

(** One entry of [series.astype(int)]: the entry is read as an integer,
    which has to fit the [int64] of the new column. *)
Definition int_of_value (v : value) : result value :=
  match v with
  | VStr s =>
      match py_int s with
      | Some z => int64_of z
      | None => Raise (ValueError "invalid literal for int() with base 10")
      end
  | VInt z => int64_of z
  | VFloat q => Ok (VInt (Z.quot (Qnum q) (Z.pos (Qden q))))
  | VNull => Raise (ValueError "cannot convert float NaN to integer")
  end.

(** A label that [astype(int)] accepts. *)
Definition int64_label (label : string) : Prop :=
  exists z, py_int label = Some z /\ in_int64 z = true.

(** [series.astype(int)]: the first entry that cannot be converted raises. *)
Fixpoint astype_int (s : list value) : result (list value) :=
  match s with
  | [] => Ok []
  | v :: s' => z ← int_of_value v; zs ← astype_int s'; Ok (z :: zs)
  end.

(** [numpy.tile(col, k)] *)
Fixpoint tile {A : Type} (col : list A) (k : nat) : list A :=
  match k with
  | O => []
  | S k' => col ++ tile col k'
  end.

(** The columns of [df] that are not identifier columns, in table order. *)
Definition value_columns (df : DataFrame) (id_vars : list string) : DataFrame :=
  List.filter (fun c => negb (mem c.1 id_vars)) df.

Fixpoint getitems (df : DataFrame) (names : list string) : result DataFrame :=
  match names with
  | [] => Ok []
  | n :: names' =>
      c ← getitem df n; cs ← getitems df names'; Ok ((n, c) :: cs)
  end.

(** [pd.melt(df, id_vars=..., var_name=..., value_name=...)].  The
    identifier columns are repeated once per value column, the labels of
    the value columns are repeated once per row, and the value columns are
    laid end to end.  A missing identifier column is a [KeyError]; a table
    that already has a column called [value_name] is a [ValueError]. *)
Definition melt (df : DataFrame) (id_vars : list string)
    (var_name value_name : string) : result DataFrame :=
  if has_column df value_name
  then Raise (ValueError "value_name cannot match an element in the DataFrame columns")
  else
    ids ← getitems df id_vars;
    let vals := value_columns df id_vars in
    let n := nrows df in
    let k := length vals in
    Ok (List.map (fun c => (c.1, tile c.2 k)) ids
        ++ [ (var_name, List.concat (List.map (fun c => repeat (VStr c.1) n) vals));
             (value_name, List.concat (List.map snd vals)) ]).

Definition id_vars : list string := ["country"; "ISO2"].

Definition pivot_data (df : DataFrame) : result DataFrame :=
  df_long ← melt df id_vars "year" "hours";
  year ← getitem df_long "year";
  year ← astype_int year;
  Ok (setitem df_long "year" year).

(** The rows of a long table, read across its four columns. *)
Record observation : Type := Observation {
  obs_country : value;
  obs_iso2 : value;
  obs_year : value;
  obs_hours : value
}.

Fixpoint zip4 (a b c d : list value) : list observation :=
  match a, b, c, d with
  | x :: a', y :: b', z :: c', w :: d' => Observation x y z w :: zip4 a' b' c' d'
  | _, _, _, _ => []
  end.

Definition long_rows (df_long : DataFrame) : result (list observation) :=
  c ← getitem df_long "country";
  i ← getitem df_long "ISO2";
  y ← getitem df_long "year";
  h ← getitem df_long "hours";
  Ok (zip4 c i y h).

(** The cell that [astype(int)] makes of a column label. *)
Definition year_cell (label : string) : value :=
  from_option VInt VNull (py_int label).

#[global] Arguments year_cell : simpl never.


(** ** Year selection *)

Definition as_int (v : value) : option Z :=
  match v with VInt z => Some z | _ => None end.

(** [series.unique()] on a column of integers: the distinct entries in
    order of first appearance. *)
Fixpoint unique_from (seen : list Z) (l : list Z) : list Z :=
  match l with
  | [] => []
  | x :: l' =>
      if bool_decide (x ∈ seen) then unique_from seen l'
      else x :: unique_from (x :: seen) l'
  end.

Definition unique (l : list Z) : list Z := unique_from [] l.

Fixpoint insert_sorted (x : Z) (l : list Z) : list Z :=
  match l with
  | [] => [x]
  | y :: l' => if x <=? y then x :: l else y :: insert_sorted x l'
  end.

(** [sorted(l)] on integers. *)
Definition sorted (l : list Z) : list Z := foldr insert_sorted [] l.

(** [st.selectbox(label, options, index=index, key=...)] before the user
    has touched the widget: the option at [index], nothing when there are
    no options, and an exception when there are options and [index] does
    not point at one. *)
Definition selectbox (options : list Z) (index : Z) : result (option Z) :=
  match options with
  | [] => Ok None
  | _ =>
      if (0 <=? index) && (index <? Z.of_nat (length options))
      then Ok (options !! Z.to_nat index)
      else Raise (OtherError "Selectbox index must be between 0 and length of options")
  end.

(** [x or 2024] on an optional integer: [None] and [0] are falsy. *)
Definition or_2024 (x : option Z) : Z :=
  match x with
  | Some y => if y =? 0 then 2024 else y
  | None => 2024
  end.

(** The first two lines of the [with col1] block of [main], for a [year]
    column of integers, which is what [pivot_data] returns; the statements
    about it assume such a column. *)
Definition main_year_selected (df_long : DataFrame) : result Z :=
  year ← getitem df_long "year";
  let years := sorted (unique (omap as_int year)) in
  chosen ← selectbox years (Z.of_nat (length years) - 1);
  Ok (or_2024 chosen).

(** ** Chart events *)

(** The objects an event payload is made of. *)
#[warnings="-register-all"]
Inductive pyval : Type :=
  | PNone
  | PBool (b : bool)
  | PInt (z : Z)
  | PFloat (q : Q)
  | PStr (s : string)
  | PList (l : list pyval)
  | PDict (d : list (string * pyval)).

(** Python's truth value of an object. *)
Definition truthy (v : pyval) : bool :=
  match v with
  | PNone => false
  | PBool b => b
  | PInt z => negb (z =? 0)
  | PFloat q => negb (Qeq_bool q 0)
  | PStr s => negb (String.eqb s "")
  | PList l => match l with [] => false | _ => true end
  | PDict d => match d with [] => false | _ => true end
  end.

(** The entry of a dict under a key. *)
Fixpoint dict_get (d : list (string * pyval)) (k : string) : option pyval :=
  match d with
  | [] => None
  | (k', v) :: d' => if String.eqb k' k then Some v else dict_get d' k
  end.

(** [o.get(k, default)]: only a dict has a [get] method. *)
Definition py_get (o : pyval) (k : string) (default : pyval) : result pyval :=
  match o with
  | PDict d => Ok (from_option id default (dict_get d k))
  | _ => Raise (AttributeError "object has no attribute 'get'")
  end.

(** [o[0]] *)
Definition py_first (o : pyval) : result pyval :=
  match o with
  | PList (x :: _) => Ok x
  | PList [] => Raise (OtherError "IndexError: list index out of range")
  | PStr (String c _) => Ok (PStr (String c EmptyString))
  | PStr EmptyString => Raise (OtherError "IndexError: string index out of range")
  | PDict _ => Raise (KeyError "0")
  | _ => Raise (TypeError "object is not subscriptable")
  end.

Definition extract_selected_country (event : pyval) (selection_name : string)
    : result pyval :=
  selection ← py_get (if truthy event then event else PDict []) "selection" (PDict []);
  sel ← py_get selection selection_name PNone;
  match sel with
  | PList (first :: _) => py_get first "country" PNone
  | PDict d =>
      match dict_get d "country" with
      | Some v => Ok (match v with PList (v0 :: _) => v0 | _ => v end)
      | None =>
          match dict_get d "values" with
          | Some values =>
              if truthy values
              then first ← py_first values; py_get first "country" PNone
              else Ok PNone
          | None => Ok PNone
          end
      end
  | _ => Ok PNone
  end.

(** [clicked_country or "France"] *)
Definition country_to_show (clicked_country : pyval) : pyval :=
  if truthy clicked_country then clicked_country else PStr "France".

(** [cell == other] for one cell and one object: numbers are compared by
    value ([True] and [False] count as 1 and 0), strings with strings, and
    a missing entry equals nothing. *)
Definition cell_eqb (cell : value) (other : pyval) : bool :=
  match cell, other with
  | VStr s, PStr s' => String.eqb s s'
  | VInt z, PInt z' => z =? z'
  | VInt z, PFloat q => Qeq_bool (inject_Z z) q
  | VInt z, PBool b => z =? (if b then 1 else 0)
  | VFloat q, PInt z => Qeq_bool q (inject_Z z)
  | VFloat q, PFloat q' => Qeq_bool q q'
  | VFloat q, PBool b => Qeq_bool q (if b then 1 else 0)
  | _, _ => false
  end.

(** [column == other] as pandas evaluates it: a list is compared entry
    by entry and has to have one element per row; any other object is
    compared with every cell. *)
Definition eq_column (column : list value) (other : pyval) : result (list bool) :=
  match other with
  | PList l =>
      if (length l =? length column)%nat then Ok (zip_with cell_eqb column l)
      else Raise (ValueError "Lengths must match to compare")
  | _ => Ok (List.map (fun cell => cell_eqb cell other) column)
  end.

(** What [show_history] hands to the chart: the country named in the
    title and the rows that are plotted. *)
Record history_chart : Type := HistoryChart {
  history_country : pyval;
  history_data : DataFrame
}.

Definition show_history (df : DataFrame) (country : pyval) : result history_chart :=
  names ← getitem df "country";
  mask ← eq_column names country;
  Ok (HistoryChart country (select_rows mask df)).

(** A cell holds a code that [code_to_country] knows. *)
Definition known_code (v : value) : bool :=
  match v with
  | VStr code => bool_decide (is_Some (code_to_name code))
  | _ => false
  end.

(** ** Shapes of a selection *)

(** The entry of the [selection] dict of an event under a name. *)
Definition selection_of (event : pyval) (selection_name : string) : option pyval :=
  match event with
  | PDict d =>
      match dict_get d "selection" with
      | Some (PDict s) => dict_get s selection_name
      | _ => None
      end
  | _ => None
  end.

Definition is_record (v : pyval) : bool :=
  match v with PDict _ => true | _ => false end.

Definition nonempty_list (sel : pyval) : bool :=
  match sel with PList (_ :: _) => true | _ => false end.

Definition nonempty_list_of_records (sel : pyval) : bool :=
  match sel with PList (x :: l) => forallb is_record (x :: l) | _ => false end.

(** A dict with a [country] key or with a [values] key whose entry is
    truthy. *)
Definition dict_with_country_or_values (sel : pyval) : bool :=
  match sel with
  | PDict d =>
      match dict_get d "country", dict_get d "values" with
      | Some _, _ => true
      | None, Some values => truthy values
      | None, None => false
      end
  | _ => false
  end.

(** ** The two strategies and sample inputs *)

(** The body of the [try] block of [main]. *)
Definition remote_strategy (response : result (option DataFrame)) : result DataFrame :=
  df ← (download_data response).2; rename_countries df false.

(** The body of the [except] block of [main]. *)
Definition local_strategy (sheet : result (list (list value))) : result DataFrame :=
  df ← read_data sheet; rename_countries df true.

(** A response of the provider with every expected column and no row. *)
Definition empty_response : DataFrame :=
  [ ("freq", []); ("isco08", []); ("wstatus", []); ("worktime", []);
    ("age", []); ("unit", []); ("sex", []); ("geo\TIME_PERIOD", []);
    ("2023", []); ("2024", []) ].

(** A response with one known country and an aggregate the table of
    countries does not have. *)
Definition sample_response : DataFrame :=
  [ ("freq", [VStr "A"; VStr "A"]); ("isco08", [VStr "TOTAL"; VStr "TOTAL"]);
    ("wstatus", [VStr "EMP"; VStr "EMP"]); ("worktime", [VStr "TOTAL"; VStr "TOTAL"]);
    ("age", [VStr "Y15-64"; VStr "Y15-64"]); ("unit", [VStr "HR"; VStr "HR"]);
    ("sex", [VStr "T"; VStr "T"]);
    ("geo\TIME_PERIOD", [VStr "EU27_2020"; VStr "FR"]);
    ("2023", [VFloat (361 # 10); VFloat (359 # 10)]);
    ("2024", [VFloat (360 # 10); VFloat (358 # 10)]) ].

(** The data rows of a snapshot with France and a name the table of
    countries does not have. *)
Definition sample_sheet : list (list value) :=
  [ [VStr "France"; VStr "Kosovo"];
    [VFloat (372 # 10); VNull]; [VFloat (371 # 10); VNull];
    [VFloat (371 # 10); VNull]; [VFloat (370 # 10); VNull];
    [VFloat (369 # 10); VNull]; [VFloat (365 # 10); VNull];
    [VFloat (364 # 10); VNull]; [VFloat (362 # 10); VNull];
    [VFloat (361 # 10); VNull]; [VFloat (358 # 10); VFloat (400 # 10)] ].

(** ** Map data and colours *)

Definition bin_colors : list string :=
  ["#fef0d9"; "#fdd49e"; "#fdbb84"; "#fc8d59"; "#e34a33"; "#b30000"].
Definition no_data_color : string := "#d9d9d9".
Definition color_range : list string := no_data_color :: bin_colors.

(** [alt.Scale(domain=color_domain, range=color_range)]: the colour at the
    position the class has in the domain. *)
Fixpoint scale (domain range : list string) (x : string) : option string :=
  match domain, range with
  | d :: domain', r :: range' => if String.eqb d x then Some r else scale domain' range' x
  | _, _ => None
  end.

Definition color_scale (class : string) : option string :=
  scale color_domain color_range class.

(** The number a cell of the [hours] column stands for in [pd.cut]; a
    string cannot be compared with the edges. *)
Definition float_of_value (v : value) : result (option Q) :=
  match v with
  | VNull => Ok None
  | VFloat q => Ok (Some q)
  | VInt z => Ok (Some (inject_Z z))
  | VStr _ => Raise (TypeError "'<' not supported between instances of 'float' and 'str'")
  end.

(** One entry of the [hours_bin] column. *)
Definition cut_value (v : value) : result value :=
  h ← float_of_value v;
  Ok (from_option VStr VNull (hours_bin h)).

Fixpoint cut_series (s : list value) : result (list value) :=
  match s with
  | [] => Ok []
  | v :: s' => b ← cut_value v; bs ← cut_series s'; Ok (b :: bs)
  end.

(** The first statements of [plot_map_value]: the rows of the chosen year
    with the columns the map reads, and their bin. *)
Definition map_source_data (df : DataFrame) (year : Z) : result DataFrame :=
  years ← getitem df "year";
  source_data ←
    getitems (select_rows (List.map (fun cell => cell_eqb cell (PInt year)) years) df)
      ["ISO2"; "country"; "hours"; "year"];
  hours ← getitem source_data "hours";
  hours_bin ← cut_series hours;
  Ok (setitem source_data "hours_bin" hours_bin).

(** [plot_map_value(df, year)], given the event that [st.altair_chart]
    returns for the map. *)
Definition plot_map_value (df : DataFrame) (year : Z) (event : pyval) : result pyval :=
  _ ← map_source_data df year;
  extract_selected_country event "country_click".

(** The [with col2] block of [main], given the year chosen in the first
    column and the event that the map chart returns. *)
Definition main_history (df_long : DataFrame) (year_selected : Z) (event : pyval)
    : result history_chart :=
  clicked_country ← plot_map_value df_long year_selected event;
  show_history df_long (country_to_show clicked_country).

(** The position of a class in the legend. *)
Fixpoint index_of (x : string) (l : list string) : option nat :=
  match l with
  | [] => None
  | y :: l' => if String.eqb y x then Some 0%nat else S <$> index_of x l'
  end.

(** * Properties *)

(** ** Binning *)

Lemma Qle_bool_false (x y : Q) : Qle_bool x y = false -> (y < x)%Q.
Proof.
  intros H. apply Qnot_le_lt. intros Hle. apply Qle_bool_iff in Hle. congruence.
Qed.

Lemma Qeq_bool_false (x y : Q) : Qeq_bool x y = false -> ~ (x == y)%Q.
Proof. intros H Heq. apply Qeq_bool_iff in Heq. congruence. Qed.

Ltac q_facts :=
  repeat match goal with
  | H : Qle_bool _ _ = true |- _ => apply Qle_bool_iff in H
  | H : Qle_bool _ _ = false |- _ => apply Qle_bool_false in H
  | H : Qeq_bool _ _ = true |- _ => apply Qeq_bool_iff in H
  | H : Qeq_bool _ _ = false |- _ => apply Qeq_bool_false in H
  end.

Ltac q_cases :=
  repeat match goal with
  | |- context [Qeq_bool ?a ?b] => destruct (Qeq_bool a b) eqn:?; simpl
  | |- context [Qle_bool ?a ?b] => destruct (Qle_bool a b) eqn:?; simpl
  end.

(** The label shown for a number of hours, interval by interval. *)
Lemma hours_bin_display_intervals (h : Q) :
  (hours_bin_display (Some h) = "10-20" <-> 10 <= h <= 20)%Q /\
  (hours_bin_display (Some h) = "21-30" <-> 20 < h <= 30)%Q /\
  (hours_bin_display (Some h) = "31-35" <-> 30 < h <= 35)%Q /\
  (hours_bin_display (Some h) = "36-40" <-> 35 < h <= 40)%Q /\
  (hours_bin_display (Some h) = "41-45" <-> 40 < h <= 45)%Q /\
  (hours_bin_display (Some h) = "46-60" <-> 45 < h <= 60)%Q /\
  (hours_bin_display (Some h) = "No data" <-> h < 10 \/ 60 < h)%Q.
Proof.
  unfold hours_bin_display, hours_bin, cut, bins, labels.
  cbn [searchsorted_left andb].
  q_cases; q_facts;
    repeat split; intros; try discriminate; try lra.
Qed.

Lemma hours_bin_display_in_domain (h : option Q) :
  hours_bin_display h ∈ color_domain.
Proof.
  destruct h as [h|]; [|by left].
  unfold hours_bin_display, hours_bin, cut, bins, labels, color_domain.
  cbn [searchsorted_left andb].
  q_cases; set_solver.
Qed.

(** C2.  Binning is total and deterministic.  Every hours value, missing
    or not, is shown under exactly one of the seven labels of the colour
    domain, which are pairwise distinct; the six bins are the intervals
    [10,20], (20,30], (30,35], (35,40], (40,45] and (45,60] cut by the
    edges [bins], closed on the right, the lowest edge included; anything
    else is "No data".  In particular 10 and 20 give "10-20", 60 gives
    "46-60", 61 and a missing value give "No data". *)
Theorem binning_total_deterministic :
  bins = [10; 20; 30; 35; 40; 45; 60]%Q /\
  color_domain
    = ["No data"; "10-20"; "21-30"; "31-35"; "36-40"; "41-45"; "46-60"] /\
  NoDup color_domain /\
  (forall h : option Q, hours_bin_display h ∈ color_domain) /\
  (forall h : Q,
     (hours_bin_display (Some h) = "10-20" <-> 10 <= h <= 20)%Q /\
     (hours_bin_display (Some h) = "21-30" <-> 20 < h <= 30)%Q /\
     (hours_bin_display (Some h) = "31-35" <-> 30 < h <= 35)%Q /\
     (hours_bin_display (Some h) = "36-40" <-> 35 < h <= 40)%Q /\
     (hours_bin_display (Some h) = "41-45" <-> 40 < h <= 45)%Q /\
     (hours_bin_display (Some h) = "46-60" <-> 45 < h <= 60)%Q /\
     (hours_bin_display (Some h) = "No data" <-> h < 10 \/ 60 < h)%Q) /\
  hours_bin_display (Some 10%Q) = "10-20" /\
  hours_bin_display (Some 20%Q) = "10-20" /\
  hours_bin_display (Some 60%Q) = "46-60" /\
  hours_bin_display (Some 61%Q) = "No data" /\
  hours_bin_display None = "No data".
Proof.
  split; [reflexivity|]. split; [reflexivity|].
  split; [apply (bool_decide_unpack _); by vm_compute|].
  split; [apply hours_bin_display_in_domain|].
  split; [apply hours_bin_display_intervals|].
  repeat split.
Qed.

(** ** Country table *)

Section reverse.
Implicit Types (items : list (string * string)) (d : gmap string string).

Lemma lookup_dict_of_items_acc items d k v :
  foldl (fun d kv => <[kv.1 := kv.2]> d) d items !! k = Some v ->
  (k, v) ∈ items \/ d !! k = Some v.
Proof.
  revert d. induction items as [|[k' v'] items IH]; intros d H; simpl in *.
  - by right.
  - apply IH in H as [H|H].
    + left. by constructor.
    + destruct (decide (k' = k)) as [->|Hne].
      * rewrite lookup_insert_eq in H. injection H as ->. left. constructor.
      * rewrite lookup_insert_ne in H by done. by right.
Qed.

(** Every entry of a dict display is one of the pairs written. *)
Lemma lookup_dict_of_items items k v :
  dict_of_items items !! k = Some v -> (k, v) ∈ items.
Proof.
  intros H. apply lookup_dict_of_items_acc in H as [H|H]; [done|].
  by rewrite lookup_empty in H.
Qed.

Lemma lookup_reverse_fresh items d v :
  v ∉ items.*2 ->
  foldl (fun d kv => <[kv.2 := kv.1]> d) d items !! v = d !! v.
Proof.
  revert d. induction items as [|[k' v'] items IH]; intros d Hv; simpl in *.
  - done.
  - apply not_elem_of_cons in Hv as [Hne Hv].
    rewrite IH by done. by rewrite lookup_insert_ne.
Qed.

Lemma lookup_reverse_acc items d k v :
  NoDup items.*2 -> (k, v) ∈ items ->
  foldl (fun d kv => <[kv.2 := kv.1]> d) d items !! v = Some k.
Proof.
  revert d. induction items as [|[k' v'] items IH]; intros d Hnd Hin; simpl in *.
  - by apply elem_of_nil in Hin.
  - apply NoDup_cons in Hnd as [Hfresh Hnd].
    apply elem_of_cons in Hin as [Heq|Hin].
    + injection Heq as -> ->.
      rewrite lookup_reverse_fresh by done. by rewrite lookup_insert_eq.
    + by apply IH.
Qed.

(** The reversing loop sends every name back to its code as soon as no
    name is written twice. *)
Lemma reverse_items_round_trip items k v :
  NoDup items.*2 ->
  dict_of_items items !! k = Some v -> reverse_items items !! v = Some k.
Proof.
  intros Hnd H. apply lookup_reverse_acc; [done|].
  by apply lookup_dict_of_items.
Qed.
End reverse.

Lemma code_to_country_names_distinct : NoDup code_to_country_items.*2.
Proof. apply (bool_decide_unpack _). by vm_compute. Qed.

(** C3.  Round trip of the country table.  The table has 36 entries, and
    for every code in it, the name the table gives for the code is sent
    back to that code by the reversed dict of [rename_countries]. *)
Theorem resolver_round_trip :
  size code_to_country = 36%nat /\
  forall code name : string,
    code_to_name code = Some name -> name_to_code name = Some code.
Proof.
  split; [by vm_compute|].
  intros code name H.
  apply reverse_items_round_trip; [apply code_to_country_names_distinct|done].
Qed.

Lemma resolver_round_trip_witness :
  code_to_name "TR" = Some "Türkiye" /\ name_to_code "Türkiye" = Some "TR".
Proof.
  assert (H : code_to_name "TR" = Some "Türkiye") by (by vm_compute).
  split; [exact H|].
  exact (proj2 resolver_round_trip "TR" "Türkiye" H).
Defined.

(** ** Acquisition and fallback *)

Lemma find_none_of_Forall {A : Type} (f : A -> bool) (l : list A) :
  Forall (fun x => f x = false) l -> List.find f l = None.
Proof.
  induction 1 as [|x l Hx _ IH]; simpl; [done|]. by rewrite Hx.
Qed.

Lemma find_some_of_elem {A : Type} (f : A -> bool) (l : list A) (x : A) :
  x ∈ l -> f x = true -> is_Some (List.find f l).
Proof.
  intros Hin Hx. destruct (List.find f l) eqn:E; [by eexists|].
  apply list_elem_of_In in Hin.
  pose proof (find_none f l E x Hin). congruence.
Qed.

Lemma drop_missing (df : DataFrame) (names : list string) (name : string) :
  name ∈ names -> has_column df name = false -> raises (drop df names).
Proof.
  intros Hin Hmiss. unfold drop.
  destruct (find_some_of_elem (fun n => negb (has_column df n)) names name Hin)
    as [n ->]; [by rewrite Hmiss|done].
Qed.

Lemma drop_present (df : DataFrame) (names : list string) :
  Forall (fun n => has_column df n = true) names ->
  drop df names = Ok (List.filter (fun c => negb (mem c.1 names)) df).
Proof.
  intros Hall. unfold drop. rewrite find_none_of_Forall; [done|].
  eapply Forall_impl; [exact Hall|]. by intros n ->.
Qed.

(** C5, as the code has it.  [download_data] raises when the provider
    returns nothing ([None]), when the provider call itself raises, and
    when the table it returns lacks one of the seven dimension columns, as
    a table without any column does.  A table that has the seven columns
    is returned without them, whether or not it has rows. *)
Theorem download_data_raises_when_absent (response : result (option DataFrame)) :
  (response = Ok None ->
     (download_data response).2 = Raise (RuntimeError "Eurostat returned no data")) /\
  (forall e, response = Raise e -> (download_data response).2 = Raise e) /\
  (response = Ok (Some []) -> raises (download_data response).2) /\
  (forall df name, response = Ok (Some df) ->
     name ∈ dimension_columns -> has_column df name = false ->
     raises (download_data response).2) /\
  (forall df, response = Ok (Some df) ->
     Forall (fun n => has_column df n = true) dimension_columns ->
     (download_data response).2
       = Ok (rename (List.filter (fun c => negb (mem c.1 dimension_columns)) df)
               "geo\TIME_PERIOD" "ISO2")).
Proof.
  split; [by intros ->|]. split; [by intros e ->|].
  split; [by intros ->|]. split.
  - intros df name -> Hin Hmiss. simpl.
    pose proof (drop_missing df dimension_columns name Hin Hmiss) as Hr.
    by destruct (drop df dimension_columns).
  - intros df -> Hall. simpl. by rewrite (drop_present _ _ Hall).
Qed.

Lemma download_data_raises_when_absent_witness :
  (download_data (Ok None)).2 = Raise (RuntimeError "Eurostat returned no data") /\
  (download_data (Raise (OtherError "timed out"))).2 = Raise (OtherError "timed out") /\
  raises (download_data (Ok (Some []))).2 /\
  raises (download_data (Ok (Some [("geo\TIME_PERIOD", [VStr "FR"])]))).2 /\
  (download_data (Ok (Some sample_response))).2
    = Ok [ ("ISO2", [VStr "EU27_2020"; VStr "FR"]);
           ("2023", [VFloat (361 # 10); VFloat (359 # 10)]);
           ("2024", [VFloat (360 # 10); VFloat (358 # 10)]) ].
Proof.
  split; [exact (proj1 (download_data_raises_when_absent (Ok None)) eq_refl)|].
  split; [exact (proj1 (proj2 (download_data_raises_when_absent _)) _ eq_refl)|].
  split; [exact (proj1 (proj2 (proj2 (download_data_raises_when_absent _))) eq_refl)|].
  split.
  - refine (proj1 (proj2 (proj2 (proj2 (download_data_raises_when_absent _))))
              [("geo\TIME_PERIOD", [VStr "FR"])] "freq" eq_refl _ eq_refl).
    by left.
  - refine (eq_trans
      (proj2 (proj2 (proj2 (proj2 (download_data_raises_when_absent _))))
         sample_response eq_refl _) eq_refl).
    unfold dimension_columns. repeat constructor.
Defined.

(** C5 as stated fails: a response that is an empty table with the
    expected columns is returned as a table. *)
Lemma download_data_returns_empty_table :
  nrows empty_response = 0%nat /\
  (download_data (Ok (Some empty_response))).2
    = Ok [("ISO2", []); ("2023", []); ("2024", [])] /\
  ~ raises (download_data (Ok (Some empty_response))).2.
Proof. split; [done|]. split; [done|]. intros []. Qed.




(** ** Columns of a table *)

Lemma getitem_setitem_eq (df : DataFrame) (name : string) (col : list value) :
  getitem (setitem df name col) name = Ok col.
Proof.
  induction df as [|[n c] df IH]; simpl.
  - by rewrite String.eqb_refl.
  - destruct (String.eqb n name) eqn:E; simpl; by rewrite ?E.
Qed.

Lemma getitem_setitem_ne (df : DataFrame) (name other : string) (col : list value) :
  other <> name -> getitem (setitem df name col) other = getitem df other.
Proof.
  intros Hne. induction df as [|[n c] df IH]; simpl.
  - destruct (String.eqb name other) eqn:E; [|done].
    apply String.eqb_eq in E. congruence.
  - destruct (String.eqb n name) eqn:E; simpl.
    + apply String.eqb_eq in E as ->.
      destruct (String.eqb name other) eqn:E'; [|done].
      apply String.eqb_eq in E'. congruence.
    + by rewrite IH.
Qed.

Lemma getitem_select_rows (mask : list bool) (df : DataFrame) (name : string)
    (col : list value) :
  getitem df name = Ok col ->
  getitem (select_rows mask df) name = Ok (select mask col).
Proof.
  induction df as [|[n c] df IH]; simpl; [done|].
  destruct (String.eqb n name); [|done]. by intros [= ->].
Qed.

Lemma select_map {A B : Type} (f : A -> bool) (g : A -> B) (l : list A) :
  select (List.map f l) (List.map g l) = List.map g (List.filter f l).
Proof.
  induction l as [|x l IH]; simpl; [done|]. destruct (f x); simpl; by rewrite IH.
Qed.

Lemma select_filter {A : Type} (f : A -> bool) (l : list A) :
  select (List.map f l) l = List.filter f l.
Proof.
  pose proof (select_map f id l) as H. by rewrite !List.map_id in H.
Qed.

(** ** Country annotation *)

Lemma known_code_map_value (v : value) :
  negb (isna (map_value code_to_country v)) = known_code v.
Proof.
  destruct v as [|code| |]; [reflexivity| |reflexivity|reflexivity].
  unfold map_value, known_code, code_to_name.
  destruct (code_to_country !! code) eqn:E; cbn [isna negb]; symmetry.
  - apply bool_decide_eq_true. by eexists.
  - apply bool_decide_eq_false. by intros [? ?].
Qed.
(** C6.  The two paths annotate countries differently.  On the remote path
    the rows that stay are exactly those whose code is in the table of
    countries: every column is cut down to these rows, so a row with an
    unknown code is dropped.  On the local path the table keeps every
    column as it is, the new [ISO2] column has one entry per name, and the
    entry of a name without a code is missing (NaN); no row is dropped. *)
Theorem rename_countries_asymmetric (df df' : DataFrame) :
  (rename_countries df false = Ok df' ->
     exists iso,
       getitem df "ISO2" = Ok iso /\
       df' = select_rows (List.map known_code iso)
               (setitem df "country" (series_map code_to_country iso)) /\
       getitem df' "ISO2" = Ok (List.filter known_code iso) /\
       getitem df' "country"
         = Ok (series_map code_to_country (List.filter known_code iso)) /\
       (forall name col, name <> "country" -> getitem df name = Ok col ->
          getitem df' name = Ok (select (List.map known_code iso) col))) /\
  (rename_countries df true = Ok df' ->
     exists names,
       getitem df "country" = Ok names /\
       df' = setitem df "ISO2" (series_map new_dict names) /\
       getitem df' "country" = Ok names /\
       (forall name, name <> "ISO2" -> getitem df' name = getitem df name) /\
       (exists iso, getitem df' "ISO2" = Ok iso /\ length iso = length names /\
          forall (i : nat) (name : string),
            names !! i = Some (VStr name) -> name_to_code name = None ->
            iso !! i = Some VNull)).
Proof.
  unfold rename_countries. split; cbn [negb].
  - destruct (getitem df "ISO2") as [iso|e] eqn:Eiso; [|intros [=]].
    cbn [mbind result_bind]. unfold dropna. rewrite getitem_setitem_eq.
    cbn [mbind result_bind]. unfold series_map at 1. rewrite List.map_map.
    rewrite (List.map_ext _ _ known_code_map_value).
    intros [= <-]. exists iso. split; [reflexivity|]. split; [reflexivity|].
    split; [|split].
    + rewrite <- select_filter. apply getitem_select_rows.
      rewrite getitem_setitem_ne; [exact Eiso|discriminate].
    + unfold series_map. rewrite <- select_map. apply getitem_select_rows.
      apply getitem_setitem_eq.
    + intros name col Hne Hcol. apply getitem_select_rows.
      rewrite getitem_setitem_ne; assumption.
  - destruct (getitem df "country") as [names|e] eqn:Enames; [|intros [=]].
    cbn [mbind result_bind].
    intros [= <-]. exists names. split; [reflexivity|]. split; [reflexivity|].
    split; [rewrite getitem_setitem_ne; [exact Enames|discriminate]|].
    split; [intros name Hne; apply getitem_setitem_ne; exact Hne|].
    exists (series_map new_dict names).
    split; [apply getitem_setitem_eq|].
    unfold series_map. split; [apply length_map|].
    intros i name Hi Hnone.
    change (List.map (map_value new_dict) names) with (map_value new_dict <$> names).
    rewrite list_lookup_fmap, Hi. cbn [fmap option_fmap option_map map_value].
    unfold name_to_code in Hnone. rewrite Hnone. reflexivity.
Qed.

Lemma rename_countries_asymmetric_witness :
  let remote := [ ("ISO2", [VStr "EU27_2020"; VStr "FR"]);
                  ("2024", [VFloat (360 # 10); VFloat (358 # 10)]) ] in
  let remote' := [ ("ISO2", [VStr "FR"]); ("2024", [VFloat (358 # 10)]);
                   ("country", [VStr "France"]) ] in
  let snapshot := [ ("country", [VStr "France"; VStr "Kosovo"]);
                    ("2024", [VFloat (358 # 10); VNull]) ] in
  let snapshot' := [ ("country", [VStr "France"; VStr "Kosovo"]);
                     ("2024", [VFloat (358 # 10); VNull]);
                     ("ISO2", [VStr "FR"; VNull]) ] in
  (rename_countries remote false = Ok remote' /\
   exists iso, getitem remote "ISO2" = Ok iso /\
     getitem remote' "ISO2" = Ok (List.filter known_code iso)) /\
  (rename_countries snapshot true = Ok snapshot' /\
   exists names, getitem snapshot "country" = Ok names /\
     getitem snapshot' "country" = Ok names).
Proof.
  intros remote remote' snapshot snapshot'.
  assert (Hr : rename_countries remote false = Ok remote')
    by (vm_compute; reflexivity).
  assert (Hs : rename_countries snapshot true = Ok snapshot')
    by (vm_compute; reflexivity).
  split; (split; [assumption|]).
  - destruct (proj1 (rename_countries_asymmetric remote remote') Hr)
      as (iso & H1 & _ & H2 & _).
    exists iso. split; assumption.
  - destruct (proj2 (rename_countries_asymmetric snapshot snapshot') Hs)
      as (names & H1 & _ & H2 & _).
    exists names. split; assumption.
Defined.

(** ** Wide to long *)

Lemma astype_int_app (a b : list value) :
  astype_int (a ++ b) = (x ← astype_int a; y ← astype_int b; Ok (x ++ y)).
Proof.
  induction a as [|v a IH]; simpl.
  - by destruct (astype_int b).
  - destruct (int_of_value v); simpl; [|done]. rewrite IH.
    destruct (astype_int a); simpl; [|done]. by destruct (astype_int b).
Qed.

Lemma astype_int_repeat (v : value) (n : nat) :
  astype_int (repeat v n)
  = match n with
    | O => Ok []
    | S _ => y ← int_of_value v; Ok (repeat y n)
    end.
Proof.
  destruct n as [|n]; [done|].
  induction n as [|n IH]; cbn [repeat astype_int] in *.
  - by destruct (int_of_value v).
  - destruct (int_of_value v) as [y|e]; cbn [mbind result_bind] in *; [|done].
    by rewrite IH.
Qed.


Lemma int_of_value_int64_label (label : string) :
  int64_label label -> int_of_value (VStr label) = Ok (year_cell label).
Proof.
  intros (z & Hz & Hr). unfold int_of_value, int64_of, year_cell.
  by rewrite Hz, Hr.
Qed.






(** [pivot_data] on a table that has both identifier columns and no column
    called [hours]. *)
Lemma pivot_data_unfold (df : DataFrame) (country iso : list value) :
  getitem df "country" = Ok country -> getitem df "ISO2" = Ok iso ->
  has_column df "hours" = false ->
  let vals := value_columns df id_vars in
  pivot_data df
  = (year ← astype_int
        (List.concat (List.map (fun c => repeat (VStr c.1) (nrows df)) vals));
     Ok [ ("country", tile country (length vals));
          ("ISO2", tile iso (length vals));
          ("year", year);
          ("hours", List.concat (List.map snd vals)) ]).
Proof.
  intros Hc Hi Hh vals. unfold pivot_data, melt. rewrite Hh.
  unfold id_vars at 1. simpl getitems. rewrite Hc, Hi. simpl.
  fold vals. by destruct (astype_int _).
Qed.

Lemma pivot_data_inv (df long : DataFrame) :
  pivot_data df = Ok long ->
  exists country iso,
    getitem df "country" = Ok country /\ getitem df "ISO2" = Ok iso /\
    has_column df "hours" = false.
Proof.
  unfold pivot_data, melt.
  destruct (has_column df "hours"); [done|].
  unfold id_vars at 1. simpl getitems.
  destruct (getitem df "country") as [country|]; [|done].
  destruct (getitem df "ISO2") as [iso|]; [|done].
  intros _. by exists country, iso.
Qed.

Lemma getitem_elem_of (df : DataFrame) (name : string) (col : list value) :
  getitem df name = Ok col -> (name, col) ∈ df.
Proof.
  induction df as [|[n c] df IH]; simpl; [done|].
  destruct (String.eqb n name) eqn:E.
  - apply String.eqb_eq in E as ->. intros [= ->]. left.
  - intros H. right. by apply IH.
Qed.

Lemma well_formed_length (df : DataFrame) (name : string) (col : list value) :
  well_formed df -> (name, col) ∈ df -> length col = nrows df.
Proof.
  intros [_ Hall] Hin. rewrite Forall_forall in Hall. exact (Hall _ Hin).
Qed.

Lemma elem_of_value_columns (df : DataFrame) (ids : list string) (c : string * list value) :
  c ∈ value_columns df ids <-> c ∈ df /\ mem c.1 ids = false.
Proof.
  unfold value_columns. rewrite !list_elem_of_In, filter_In.
  by rewrite negb_true_iff.
Qed.


Ltac name_cases H :=
  repeat (apply elem_of_cons in H as [->|H]); [..|by apply elem_of_nil in H].

(** C7.  Pivoting a table with one row and the year columns 2020 and 2021
    (whatever the order of its four columns) gives exactly two rows, one
    per year, each with the country and code of the row and with the very
    cell the wide table has for that year. *)
Theorem pivot_two_years (df : DataFrame) (c i h20 h21 : value) :
  column_names df ≡ₚ ["country"; "ISO2"; "2020"; "2021"] ->
  getitem df "country" = Ok [c] -> getitem df "ISO2" = Ok [i] ->
  getitem df "2020" = Ok [h20] -> getitem df "2021" = Ok [h21] ->
  exists long rows,
    pivot_data df = Ok long /\ long_rows long = Ok rows /\
    length rows = 2%nat /\
    rows ≡ₚ [ Observation c i (VInt 2020) h20; Observation c i (VInt 2021) h21 ].
Proof.
  intros Hperm Hc Hi H20 H21.
  pose proof (Permutation_length Hperm) as Hlen.
  assert (Hnd : NoDup (column_names df)).
  { rewrite Hperm. apply (bool_decide_unpack _). by vm_compute. }
  destruct df as [|[n1 c1] [|[n2 c2] [|[n3 c3] [|[n4 c4] [|]]]]]; try discriminate.
  clear Hlen. cbn in Hperm, Hnd.
  assert (H1 : n1 ∈ ["country"; "ISO2"; "2020"; "2021"]) by (rewrite <- Hperm; by left).
  assert (H2 : n2 ∈ ["country"; "ISO2"; "2020"; "2021"])
    by (rewrite <- Hperm; right; by left).
  assert (H3 : n3 ∈ ["country"; "ISO2"; "2020"; "2021"])
    by (rewrite <- Hperm; do 2 right; by left).
  assert (H4 : n4 ∈ ["country"; "ISO2"; "2020"; "2021"])
    by (rewrite <- Hperm; do 3 right; by left).
  clear Hperm.
  apply NoDup_cons in Hnd as [Hn1 Hnd]. apply NoDup_cons in Hnd as [Hn2 Hnd].
  apply NoDup_cons in Hnd as [Hn3 _].
  repeat rewrite not_elem_of_cons in Hn1. repeat rewrite not_elem_of_cons in Hn2.
  repeat rewrite not_elem_of_cons in Hn3.
  destruct Hn1 as (N12 & N13 & N14 & _), Hn2 as (N23 & N24 & _), Hn3 as (N34 & _).
  name_cases H1; name_cases H2; try congruence;
    name_cases H3; try congruence; name_cases H4; try congruence;
    clear N12 N13 N14 N23 N24 N34;
    vm_compute in Hc, Hi, H20, H21;
    injection Hc as ->; injection Hi as ->; injection H20 as ->; injection H21 as ->;
    do 2 eexists; (split; [vm_compute; reflexivity|]);
    (split; [vm_compute; reflexivity|]); (split; [reflexivity|]);
    first [reflexivity | apply perm_swap].
Qed.

Lemma pivot_two_years_witness :
  exists long rows,
    pivot_data [ ("country", [VStr "France"]);
                 ("2020", [VFloat (365 # 10)]); ("2021", [VFloat (364 # 10)]);
                 ("ISO2", [VStr "FR"]) ] = Ok long /\
    long_rows long = Ok rows /\ length rows = 2%nat /\
    rows ≡ₚ [ Observation (VStr "France") (VStr "FR") (VInt 2020) (VFloat (365 # 10));
              Observation (VStr "France") (VStr "FR") (VInt 2021) (VFloat (364 # 10)) ].
Proof.
  apply pivot_two_years; try reflexivity.
  cbn. apply perm_skip.
  etrans; [|apply perm_swap]. apply perm_skip. apply perm_swap.
Defined.



(** ** Default year *)

Lemma elem_of_unique_from (seen l : list Z) (x : Z) :
  x ∈ unique_from seen l <-> x ∈ l /\ x ∉ seen.
Proof.
  revert seen. induction l as [|y l IH]; intros seen; simpl.
  - split; [by intros ?%elem_of_nil|by intros [?%elem_of_nil _]].
  - case_bool_decide as Hy.
    + rewrite IH, elem_of_cons. split; [tauto|].
      intros [[->|Hx] Hs]; [done|tauto].
    + rewrite !elem_of_cons, IH, not_elem_of_cons. split.
      * intros [->|(Hx & Hne & Hs)]; tauto.
      * intros [[->|Hx] Hs]; [tauto|].
        destruct (decide (x = y)) as [->|Hne]; tauto.
Qed.

Lemma elem_of_unique (l : list Z) (x : Z) : x ∈ unique l <-> x ∈ l.
Proof.
  unfold unique. rewrite elem_of_unique_from. split; [tauto|].
  intros Hx. split; [done|]. apply not_elem_of_nil.
Qed.

Lemma elem_of_insert_sorted (x y : Z) (l : list Z) :
  y ∈ insert_sorted x l <-> y = x \/ y ∈ l.
Proof.
  induction l as [|z l IH]; simpl.
  - by rewrite elem_of_cons.
  - destruct (x <=? z); [by rewrite elem_of_cons|].
    rewrite !elem_of_cons, IH. tauto.
Qed.

Lemma elem_of_sorted (l : list Z) (x : Z) : x ∈ sorted l <-> x ∈ l.
Proof.
  induction l as [|y l IH]; simpl; [done|].
  by rewrite elem_of_insert_sorted, IH, elem_of_cons.
Qed.

(** Inserting into a list that ends with its greatest entry. *)
Lemma last_insert_sorted (x : Z) (l : list Z) :
  (forall m, last l = Some m -> forall y, y ∈ l -> y <= m) ->
  last (insert_sorted x l)
  = Some (match last l with Some m => Z.max x m | None => x end).
Proof.
  induction l as [|y l IH]; intros Hmax; simpl; [done|].
  destruct (x <=? y) eqn:E.
  - rewrite last_cons_cons.
    destruct (last (y :: l)) as [m|] eqn:El; [|by apply last_None in El].
    f_equal. apply Z.leb_le in E.
    assert (y <= m) by (apply (Hmax m eq_refl); by left). lia.
  - apply Z.leb_gt in E. rewrite last_cons, IH.
    + rewrite last_cons. destruct (last l); f_equal; lia.
    + intros m Hm z Hz. apply (Hmax m); [|by right].
      by rewrite last_cons, Hm.
Qed.

Lemma sorted_ends_with_max (l : list Z) (m : Z) :
  last (sorted l) = Some m -> forall y, y ∈ sorted l -> y <= m.
Proof.
  revert m. induction l as [|x l IH]; simpl; [by intros m [=]|].
  intros m Hm y Hy. rewrite last_insert_sorted in Hm by done.
  injection Hm as <-. apply elem_of_insert_sorted in Hy as [->|Hy].
  - destruct (last (sorted l)); lia.
  - destruct (last (sorted l)) as [m|] eqn:El.
    + specialize (IH m eq_refl y Hy). lia.
    + apply last_None in El. rewrite El in Hy. by apply elem_of_nil in Hy.
Qed.

(** The option that [main] preselects: the greatest of the years. *)
Lemma sorted_unique_last (ys : list Z) (m : Z) :
  m ∈ ys -> (forall y, y ∈ ys -> y <= m) ->
  let years := sorted (unique ys) in
  selectbox years (Z.of_nat (length years) - 1) = Ok (Some m).
Proof.
  intros Hm Hmax years.
  assert (Hin : m ∈ years) by (by apply elem_of_sorted, elem_of_unique).
  destruct (last years) as [m'|] eqn:El.
  - assert (m' = m) as ->.
    { pose proof (sorted_ends_with_max _ _ El m Hin).
      assert (m' ∈ years) as Hm' by (by apply last_Some_elem_of).
      unfold years in Hm'. rewrite elem_of_sorted, elem_of_unique in Hm'.
      specialize (Hmax _ Hm'). lia. }
    unfold selectbox. destruct years as [|y years'] eqn:Ey; [done|].
    rewrite <- Ey in *.
    assert (0 < length years)%nat by (rewrite Ey; simpl; lia).
    replace ((0 <=? Z.of_nat (length years) - 1)
             && (Z.of_nat (length years) - 1 <? Z.of_nat (length years)))
      with true by (symmetry; apply andb_true_iff; split; lia).
    rewrite last_lookup in El. f_equal. rewrite <- El. f_equal. lia.
  - apply last_None in El. rewrite El in Hin. by apply elem_of_nil in Hin.
Qed.

(** ** Clicked country *)

(** C10, as the code has it.  [extract_selected_country] returns [None],
    without raising, for an event that is [None] or falsy in another way,
    for an event dict without a [selection] entry, for one whose
    [selection] dict has no entry under the given name, and for one whose
    entry under that name is neither a non-empty list nor a dict with a
    [country] key or a truthy [values] entry. *)
Theorem extract_selected_country_absent (event : pyval) (selection_name : string) :
  (event = PNone \/ truthy event = false ->
     extract_selected_country event selection_name = Ok PNone) /\
  (forall d, event = PDict d -> dict_get d "selection" = None ->
     extract_selected_country event selection_name = Ok PNone) /\
  (forall d s, event = PDict d -> dict_get d "selection" = Some (PDict s) ->
     dict_get s selection_name = None ->
     extract_selected_country event selection_name = Ok PNone) /\
  (forall sel, selection_of event selection_name = Some sel ->
     nonempty_list sel = false -> dict_with_country_or_values sel = false ->
     extract_selected_country event selection_name = Ok PNone).
Proof.
  unfold extract_selected_country. split; [|split; [|split]].
  - intros [->|Hf]; [done|]. by rewrite Hf.
  - intros d -> Hd. destruct d as [|kv d]; [done|].
    cbn [truthy py_get]. rewrite Hd. done.
  - intros d s -> Hd Hs. destruct d as [|kv d]; [done|].
    cbn [truthy py_get]. rewrite Hd. cbn. by rewrite Hs.
  - intros sel Hsel Hlist Hdict. unfold selection_of in Hsel.
    destruct event as [| | | | | |d]; try done.
    destruct (dict_get d "selection") as [[| | | | | |s]|] eqn:Hd; try done.
    destruct d as [|kv d]; [done|].
    cbn [truthy py_get]. rewrite Hd. cbn. rewrite Hsel. cbn.
    destruct sel as [| | | | |[|x l]|d']; try done.
    cbn in Hdict.
    destruct (dict_get d' "country"); [done|].
    destruct (dict_get d' "values") as [values|]; [|done].
    by rewrite Hdict.
Qed.

Lemma extract_selected_country_absent_witness :
  extract_selected_country PNone "country_click" = Ok PNone /\
  extract_selected_country (PDict [("selection", PDict [])]) "country_click" = Ok PNone /\
  extract_selected_country
    (PDict [("selection", PDict [("country_click", PList [])])]) "country_click"
    = Ok PNone.
Proof.
  split; [|split].
  - exact (proj1 (extract_selected_country_absent PNone "country_click")
             (or_introl eq_refl)).
  - exact (proj1 (proj2 (proj2 (extract_selected_country_absent
             (PDict [("selection", PDict [])]) "country_click")))
             [("selection", PDict [])] [] eq_refl eq_refl eq_refl).
  - exact (proj2 (proj2 (proj2 (extract_selected_country_absent
             (PDict [("selection", PDict [("country_click", PList [])])])
             "country_click")))
             (PList []) eq_refl eq_refl eq_refl).
Defined.

(** C10 as stated fails: a selection that is a non-empty list whose first
    entry is not a record is neither of the recognised shapes, and
    [extract_selected_country] raises on it. *)
Lemma extract_selected_country_raises :
  let event := PDict [("selection", PDict [("country_click", PList [PInt 5])])] in
  selection_of event "country_click" = Some (PList [PInt 5]) /\
  nonempty_list_of_records (PList [PInt 5]) = false /\
  dict_with_country_or_values (PList [PInt 5]) = false /\
  extract_selected_country event "country_click"
    = Raise (AttributeError "object has no attribute 'get'") /\
  extract_selected_country event "country_click" <> Ok PNone.
Proof. cbv zeta. repeat split. by vm_compute. Qed.

(** * Further properties *)

(** ** The reversed table *)

Lemma lookup_reverse_items_acc (items : list (string * string))
    (d : gmap string string) (k v : string) :
  foldl (fun d kv => <[kv.2 := kv.1]> d) d items !! v = Some k ->
  (k, v) ∈ items \/ d !! v = Some k.
Proof.
  revert d. induction items as [|[k' v'] items IH]; intros d H; simpl in *.
  - by right.
  - apply IH in H as [H|H].
    + left. by constructor.
    + destruct (decide (v' = v)) as [->|Hne].
      * rewrite lookup_insert_eq in H. injection H as ->. left. constructor.
      * rewrite lookup_insert_ne in H by done. by right.
Qed.

Lemma lookup_dict_of_items_fresh (items : list (string * string))
    (d : gmap string string) (k : string) :
  k ∉ items.*1 ->
  foldl (fun d kv => <[kv.1 := kv.2]> d) d items !! k = d !! k.
Proof.
  revert d. induction items as [|[k' v'] items IH]; intros d Hk; simpl in *.
  - done.
  - apply not_elem_of_cons in Hk as [Hne Hk].
    rewrite IH by done. by rewrite lookup_insert_ne.
Qed.

Lemma lookup_dict_of_items_elem (items : list (string * string))
    (d : gmap string string) (k v : string) :
  NoDup items.*1 -> (k, v) ∈ items ->
  foldl (fun d kv => <[kv.1 := kv.2]> d) d items !! k = Some v.
Proof.
  revert d. induction items as [|[k' v'] items IH]; intros d Hnd Hin; simpl in *.
  - by apply elem_of_nil in Hin.
  - apply NoDup_cons in Hnd as [Hfresh Hnd].
    apply elem_of_cons in Hin as [Heq|Hin].
    + injection Heq as -> ->.
      rewrite lookup_dict_of_items_fresh by done. by rewrite lookup_insert_eq.
    + by apply IH.
Qed.

Lemma code_to_country_codes_distinct : NoDup code_to_country_items.*1.
Proof. apply (bool_decide_unpack _). by vm_compute. Qed.

(** A name has a code in the reversed dict only if the table gives that
    name to the code. *)
Lemma name_to_code_sound (name code : string) :
  name_to_code name = Some code -> code_to_name code = Some name.
Proof.
  unfold name_to_code, new_dict, reverse_items. intros H.
  apply lookup_reverse_items_acc in H as [H|H].
  - apply lookup_dict_of_items_elem; [apply code_to_country_codes_distinct|done].
  - by rewrite lookup_empty in H.
Qed.

Lemma name_to_code_complete (code name : string) :
  code_to_name code = Some name -> name_to_code name = Some code.
Proof.
  apply reverse_items_round_trip, code_to_country_names_distinct.
Qed.

(** X1.  The dict built by the loop of [rename_countries] is the exact
    inverse of [code_to_country]: a name is sent to a code if and only if
    the table gives that code this name.  So it has an entry for the 36
    names of the table and for nothing else, and going from a name to its
    code and back gives the name again. *)
Theorem reversed_table_is_inverse :
  (forall name code : string,
     name_to_code name = Some code <-> code_to_name code = Some name) /\
  size new_dict = 36%nat /\
  (forall name code : string,
     name_to_code name = Some code -> name_to_code name ≫= code_to_name = Some name).
Proof.
  split; [|split].
  - intros name code. split; [apply name_to_code_sound|apply name_to_code_complete].
  - by vm_compute.
  - intros name code H. rewrite H. exact (name_to_code_sound _ _ H).
Qed.

Lemma reversed_table_is_inverse_witness :
  name_to_code "Greece" = Some "GR" /\ code_to_name "GR" = Some "Greece".
Proof.
  assert (H : name_to_code "Greece" = Some "GR") by (by vm_compute).
  split; [exact H|].
  exact (proj1 (proj1 reversed_table_is_inverse "Greece" "GR") H).
Defined.

(** ** Columns, rows and well-formed tables *)

Lemma mem_elem_of (name : string) (names : list string) :
  mem name names = true <-> name ∈ names.
Proof.
  unfold mem. rewrite existsb_exists, list_elem_of_In. split.
  - intros (n & Hin & Heq). apply String.eqb_eq in Heq. by subst.
  - intros Hin. exists name. split; [done|apply String.eqb_refl].
Qed.

Lemma mem_false (name : string) (names : list string) :
  mem name names = false <-> name ∉ names.
Proof.
  rewrite <- mem_elem_of. destruct (mem name names); split; intros H;
    first [done | by destruct H].
Qed.

Lemma getitem_present (df : DataFrame) (name : string) :
  has_column df name = true -> exists col, getitem df name = Ok col.
Proof.
  unfold has_column. rewrite mem_elem_of.
  induction df as [|[n c] df IH]; simpl; [by intros ?%elem_of_nil|].
  intros Hin. destruct (String.eqb n name) eqn:E; [by eexists|].
  apply elem_of_cons in Hin as [->|Hin]; [|by apply IH].
  by rewrite String.eqb_refl in E.
Qed.

Lemma getitem_missing (df : DataFrame) (name : string) :
  has_column df name = false -> getitem df name = Raise (KeyError name).
Proof.
  unfold has_column. rewrite mem_false.
  induction df as [|[n c] df IH]; simpl; [done|].
  intros Hin. apply not_elem_of_cons in Hin as [Hne Hin].
  destruct (String.eqb n name) eqn:E; [|by apply IH].
  apply String.eqb_eq in E. congruence.
Qed.

Lemma getitem_Ok_has_column (df : DataFrame) (name : string) (col : list value) :
  getitem df name = Ok col -> has_column df name = true.
Proof.
  intros H. destruct (has_column df name) eqn:E; [done|].
  rewrite (getitem_missing _ _ E) in H. discriminate.
Qed.

Lemma length_select {A : Type} (mask : list bool) (l : list A) :
  length mask = length l ->
  length (select mask l) = length (List.filter id mask).
Proof.
  revert l. induction mask as [|b mask IH]; intros [|x l]; simpl; try done.
  intros [= Hlen]. destruct b; simpl; by rewrite IH.
Qed.

Lemma column_names_select_rows (mask : list bool) (df : DataFrame) :
  column_names (select_rows mask df) = column_names df.
Proof.
  unfold column_names, select_rows. induction df as [|[n c] df IH]; simpl; [done|].
  f_equal. exact IH.
Qed.

Lemma nrows_select_rows (mask : list bool) (df : DataFrame) :
  df <> [] -> length mask = nrows df ->
  nrows (select_rows mask df) = length (List.filter id mask).
Proof.
  destruct df as [|[n c] df]; [done|]. simpl. intros _ Hlen. by apply length_select.
Qed.

Lemma select_rows_well_formed (mask : list bool) (df : DataFrame) :
  well_formed df -> length mask = nrows df ->
  well_formed (select_rows mask df).
Proof.
  intros [Hnd Hall] Hlen. split; [by rewrite column_names_select_rows|].
  destruct df as [|[n c] df]; [constructor|].
  rewrite nrows_select_rows by done.
  unfold select_rows. apply Forall_forall. intros [n' c'] Hin.
  apply list_elem_of_In, in_map_iff in Hin as ([n'' c''] & [= <- <-] & Hin).
  rewrite Forall_forall in Hall. apply list_elem_of_In in Hin.
  specialize (Hall _ Hin). cbn [snd] in *. apply length_select. congruence.
Qed.

Lemma column_names_setitem (df : DataFrame) (name : string) (col : list value) :
  column_names (setitem df name col)
  = if has_column df name then column_names df else column_names df ++ [name].
Proof.
  induction df as [|[n c] df IH]; [done|].
  unfold has_column, mem, column_names in *. cbn [setitem fmap list_fmap fst existsb].
  rewrite (String.eqb_sym name n).
  destruct (String.eqb n name) eqn:E; cbn [orb fmap list_fmap fst]; [done|].
  rewrite IH. by destruct (existsb _ _).
Qed.

Lemma setitem_elem_of (df : DataFrame) (name : string) (col : list value)
    (c : string * list value) :
  c ∈ setitem df name col -> c ∈ df \/ c = (name, col).
Proof.
  induction df as [|[n' c'] df IH]; simpl.
  - intros Hin. apply list_elem_of_singleton in Hin. by right.
  - destruct (String.eqb n' name) eqn:E.
    + apply String.eqb_eq in E as ->.
      intros [->|Hin]%elem_of_cons; [by right|left; by right].
    + intros [->|Hin]%elem_of_cons; [left; by left|].
      destruct (IH Hin) as [?|?]; [left; by right|by right].
Qed.

Lemma nrows_setitem (df : DataFrame) (name : string) (col : list value) :
  df <> [] -> length col = nrows df -> nrows (setitem df name col) = nrows df.
Proof.
  destruct df as [|[n c] df]; [done|]. simpl. intros _ Hlen.
  by destruct (String.eqb n name).
Qed.

Lemma setitem_well_formed (df : DataFrame) (name : string) (col : list value) :
  well_formed df -> df <> [] -> length col = nrows df ->
  well_formed (setitem df name col).
Proof.
  intros [Hnd Hall] Hne Hlen. split.
  - rewrite column_names_setitem. destruct (has_column df name) eqn:E; [done|].
    apply NoDup_app. split; [done|]. split; [|apply NoDup_singleton].
    intros n Hn Hn'. apply list_elem_of_singleton in Hn' as ->.
    apply mem_false in E. by apply E.
  - rewrite nrows_setitem by done. apply Forall_forall. intros c Hin.
    apply setitem_elem_of in Hin as [Hin| ->]; [|done].
    rewrite Forall_forall in Hall. by apply Hall.
Qed.

Lemma getitem_nonempty (df : DataFrame) (name : string) (col : list value) :
  getitem df name = Ok col -> df <> [].
Proof. by destruct df. Qed.

(** ** Country annotation, row by row *)

Lemma rename_countries_remote_inv (df df' : DataFrame) :
  rename_countries df false = Ok df' ->
  exists iso,
    getitem df "ISO2" = Ok iso /\
    df' = select_rows (List.map known_code iso)
            (setitem df "country" (series_map code_to_country iso)) /\
    getitem df' "ISO2" = Ok (List.filter known_code iso) /\
    getitem df' "country"
      = Ok (series_map code_to_country (List.filter known_code iso)).
Proof.
  unfold rename_countries. cbn [negb].
  destruct (getitem df "ISO2") as [iso|e] eqn:Eiso; [|intros [=]].
  cbn [mbind result_bind]. unfold dropna. rewrite getitem_setitem_eq.
  cbn [mbind result_bind]. unfold series_map at 1. rewrite List.map_map.
  rewrite (List.map_ext _ _ known_code_map_value).
  intros [= <-]. exists iso. split; [reflexivity|]. split; [reflexivity|]. split.
  - rewrite <- select_filter. apply getitem_select_rows.
    rewrite getitem_setitem_ne; [exact Eiso|discriminate].
  - unfold series_map. rewrite <- select_map. apply getitem_select_rows.
    apply getitem_setitem_eq.
Qed.

Lemma rename_countries_local_inv (df df' : DataFrame) :
  rename_countries df true = Ok df' ->
  exists names,
    getitem df "country" = Ok names /\
    df' = setitem df "ISO2" (series_map new_dict names).
Proof.
  unfold rename_countries. cbn [negb].
  destruct (getitem df "country") as [names|e] eqn:Enames; [|intros [=]].
  cbn [mbind result_bind]. intros [= <-]. by exists names.
Qed.

Lemma known_code_inv (cell : value) :
  known_code cell = true ->
  exists code name, cell = VStr code /\ code_to_name code = Some name.
Proof.
  destruct cell as [|code| |]; try discriminate. cbn [known_code].
  intros H. apply bool_decide_eq_true in H as [name Hname]. by exists code, name.
Qed.

(** X2.  After the remote annotation every row is a known country: its
    code is a key of the table, its [country] cell is the name the table
    gives for that code, and no [country] cell is missing. *)
Theorem remote_rows_are_known_countries (df df' : DataFrame) :
  rename_countries df false = Ok df' ->
  exists iso country,
    getitem df' "ISO2" = Ok iso /\ getitem df' "country" = Ok country /\
    length country = length iso /\
    Forall (fun cell => isna cell = false) country /\
    forall (i : nat) (cell : value),
      iso !! i = Some cell ->
      exists code name,
        cell = VStr code /\ code_to_name code = Some name /\
        country !! i = Some (VStr name).
Proof.
  intros H. apply rename_countries_remote_inv in H as (iso & _ & _ & Hiso & Hcountry).
  exists (List.filter known_code iso),
         (series_map code_to_country (List.filter known_code iso)).
  split; [exact Hiso|]. split; [exact Hcountry|].
  assert (Hrow : forall (i : nat) (cell : value),
            List.filter known_code iso !! i = Some cell ->
            exists code name,
              cell = VStr code /\ code_to_name code = Some name /\
              series_map code_to_country (List.filter known_code iso) !! i
                = Some (VStr name)).
  { intros i cell Hi.
    assert (Hk : known_code cell = true).
    { apply list_elem_of_lookup_2, list_elem_of_In, filter_In in Hi. tauto. }
    destruct (known_code_inv _ Hk) as (code & name & -> & Hname).
    exists code, name. split; [reflexivity|]. split; [exact Hname|].
    unfold series_map.
    change (List.map (map_value code_to_country) (List.filter known_code iso))
      with (map_value code_to_country <$> List.filter known_code iso).
    rewrite list_lookup_fmap, Hi. cbn [fmap option_fmap option_map map_value].
    unfold code_to_name in Hname. rewrite Hname. reflexivity. }
  split; [apply length_map|]. split; [|exact Hrow].
  apply Forall_forall. intros cell Hin.
  apply list_elem_of_lookup in Hin as [i Hi].
  assert (Hlt : (i < length (List.filter known_code iso))%nat).
  { apply lookup_lt_Some in Hi. unfold series_map in Hi.
    by rewrite length_map in Hi. }
  destruct (lookup_lt_is_Some_2 _ _ Hlt) as [c Hc].
  destruct (Hrow i c Hc) as (code & name & _ & _ & Hn).
  rewrite Hi in Hn. by injection Hn as ->.
Qed.

Lemma remote_rows_are_known_countries_witness :
  let remote := [ ("ISO2", [VStr "EU27_2020"; VStr "FR"]);
                  ("2024", [VFloat (360 # 10); VFloat (358 # 10)]) ] in
  let remote' := [ ("ISO2", [VStr "FR"]); ("2024", [VFloat (358 # 10)]);
                   ("country", [VStr "France"]) ] in
  rename_countries remote false = Ok remote' /\
  exists iso country,
    getitem remote' "ISO2" = Ok iso /\ getitem remote' "country" = Ok country /\
    Forall (fun cell => isna cell = false) country.
Proof.
  intros remote remote'.
  assert (Hr : rename_countries remote false = Ok remote')
    by (vm_compute; reflexivity).
  split; [exact Hr|].
  destruct (remote_rows_are_known_countries remote remote' Hr)
    as (iso & country & H1 & H2 & _ & H3 & _).
  by exists iso, country.
Defined.

(** X3.  After the local annotation the [ISO2] cell of a row is a code
    exactly when the row's [country] cell is a name of the table, and it
    is then the code of that name; every other row has a missing code. *)
Theorem local_codes_follow_names (df df' : DataFrame) :
  rename_countries df true = Ok df' ->
  exists names iso,
    getitem df "country" = Ok names /\ getitem df' "ISO2" = Ok iso /\
    length iso = length names /\
    forall (i : nat) (cell : value),
      iso !! i = Some cell ->
      (cell = VNull \/ exists code, cell = VStr code) /\
      forall code,
        cell = VStr code <->
        exists name, names !! i = Some (VStr name) /\ code_to_name code = Some name.
Proof.
  intros H. apply rename_countries_local_inv in H as (names & Hnames & ->).
  exists names, (series_map new_dict names).
  split; [exact Hnames|]. split; [apply getitem_setitem_eq|].
  split; [apply length_map|].
  intros i cell Hi. unfold series_map in Hi.
  change (List.map (map_value new_dict) names)
    with (map_value new_dict <$> names) in Hi.
  rewrite list_lookup_fmap in Hi.
  destruct (names !! i) as [v|] eqn:Ev; [|discriminate].
  cbn [fmap option_fmap option_map] in Hi. injection Hi as <-.
  destruct v as [|name| |]; cbn [map_value].
  - split; [by left|]. intros code. split; [discriminate|].
    intros (name & [=] & _).
  - destruct (new_dict !! name) as [code|] eqn:Ecode.
    + split; [right; by eexists|]. intros code'. split.
      * intros [= <-]. exists name. split; [reflexivity|].
        by apply name_to_code_sound.
      * intros (name' & [= <-] & Hc). apply name_to_code_complete in Hc.
        unfold name_to_code in Hc. congruence.
    + split; [by left|]. intros code. split; [discriminate|].
      intros (name' & [= <-] & Hc). apply name_to_code_complete in Hc.
      unfold name_to_code in Hc. congruence.
  - split; [by left|]. intros code. split; [discriminate|].
    intros (name & [=] & _).
  - split; [by left|]. intros code. split; [discriminate|].
    intros (name & [=] & _).
Qed.

Lemma local_codes_follow_names_witness :
  let snapshot := [ ("country", [VStr "France"; VStr "Kosovo"]);
                    ("2024", [VFloat (358 # 10); VNull]) ] in
  let snapshot' := [ ("country", [VStr "France"; VStr "Kosovo"]);
                     ("2024", [VFloat (358 # 10); VNull]);
                     ("ISO2", [VStr "FR"; VNull]) ] in
  rename_countries snapshot true = Ok snapshot' /\
  exists names iso,
    getitem snapshot "country" = Ok names /\ getitem snapshot' "ISO2" = Ok iso /\
    length iso = length names.
Proof.
  intros snapshot snapshot'.
  assert (Hs : rename_countries snapshot true = Ok snapshot')
    by (vm_compute; reflexivity).
  split; [exact Hs|].
  destruct (local_codes_follow_names snapshot snapshot' Hs)
    as (names & iso & H1 & H2 & H3 & _).
  by exists names, iso.
Defined.

(** X5.  [rename_countries] keeps a table well formed.  The local path
    keeps the number of rows; the remote path leaves as many rows as there
    are known codes in the [ISO2] column. *)
Theorem rename_countries_well_formed (df df' : DataFrame) (data_local : bool) :
  well_formed df -> rename_countries df data_local = Ok df' ->
  well_formed df' /\
  (data_local = true -> nrows df' = nrows df) /\
  (data_local = false ->
     exists iso, getitem df "ISO2" = Ok iso /\
       nrows df' = length (List.filter known_code iso)).
Proof.
  intros Hwf H. destruct data_local.
  - apply rename_countries_local_inv in H as (names & Hnames & ->).
    assert (Hlen : length (series_map new_dict names) = nrows df).
    { unfold series_map. rewrite length_map.
      eapply well_formed_length; [done|]. by apply getitem_elem_of. }
    pose proof (getitem_nonempty _ _ _ Hnames) as Hne.
    split; [by apply setitem_well_formed|].
    split; [intros _; by apply nrows_setitem|discriminate].
  - apply rename_countries_remote_inv in H as (iso & Hiso & -> & _ & _).
    assert (Hliso : length iso = nrows df).
    { eapply well_formed_length; [done|]. by apply getitem_elem_of. }
    assert (Hlen : length (series_map code_to_country iso) = nrows df).
    { unfold series_map. by rewrite length_map. }
    pose proof (getitem_nonempty _ _ _ Hiso) as Hne.
    pose proof (setitem_well_formed df "country" _ Hwf Hne Hlen) as Hwf'.
    pose proof (nrows_setitem df "country" _ Hne Hlen) as Hn.
    assert (Hne' : setitem df "country" (series_map code_to_country iso) <> []).
    { destruct df as [|[n c] df]; [done|]. cbn [setitem].
      by destruct (String.eqb n "country"). }
    split; [|split; [discriminate|]].
    + apply select_rows_well_formed; [done|]. rewrite length_map. congruence.
    + intros _. exists iso. split; [done|].
      rewrite nrows_select_rows; [|done|rewrite length_map; congruence].
      clear. induction iso as [|v iso IH]; [done|]. cbn [List.map List.filter].
      destruct (known_code v); cbn [id length]; by rewrite IH.
Qed.

Lemma rename_countries_well_formed_witness :
  let remote := [ ("ISO2", [VStr "EU27_2020"; VStr "FR"]);
                  ("2024", [VFloat (360 # 10); VFloat (358 # 10)]) ] in
  let remote' := [ ("ISO2", [VStr "FR"]); ("2024", [VFloat (358 # 10)]);
                   ("country", [VStr "France"]) ] in
  well_formed remote /\ rename_countries remote false = Ok remote' /\
  well_formed remote'.
Proof.
  intros remote remote'.
  assert (Hwf : well_formed remote).
  { split; [apply (bool_decide_unpack _); by vm_compute|].
    unfold remote. repeat constructor. }
  assert (Hr : rename_countries remote false = Ok remote')
    by (vm_compute; reflexivity).
  split; [exact Hwf|]. split; [exact Hr|].
  exact (proj1 (rename_countries_well_formed remote remote' false Hwf Hr)).
Defined.

(** ** Shape and errors of the pivot *)

Lemma length_tile {A : Type} (l : list A) (k : nat) :
  length (tile l k) = (k * length l)%nat.
Proof. induction k as [|k IH]; simpl; [done|]. rewrite length_app, IH. lia. Qed.

Lemma length_concat_uniform {A B : Type} (f : A -> list B) (l : list A) (n : nat) :
  Forall (fun x => length (f x) = n) l ->
  length (List.concat (List.map f l)) = (length l * n)%nat.
Proof.
  induction 1 as [|x l Hx _ IH]; simpl; [done|]. rewrite length_app, IH, Hx. lia.
Qed.

Lemma astype_int_ints (s ys : list value) :
  astype_int s = Ok ys ->
  length ys = length s /\ Forall (fun y => exists z, y = VInt z) ys.
Proof.
  revert ys. induction s as [|v s IH]; intros ys; simpl.
  - intros [= <-]. by split.
  - destruct (int_of_value v) as [y|] eqn:Ev; simpl; [|done].
    destruct (astype_int s) as [zs|]; simpl; [|done].
    intros [= <-]. destruct (IH zs eq_refl) as [Hlen Hall].
    split; [simpl; by rewrite Hlen|]. constructor; [|done].
    destruct v as [|l|z|q]; unfold int_of_value, int64_of in Ev.
    + discriminate.
    + destruct (py_int l) as [z|]; [|discriminate].
      destruct (in_int64 z); [|discriminate]. injection Ev as <-. by eexists.
    + destruct (in_int64 z); [|discriminate]. injection Ev as <-. by eexists.
    + injection Ev as <-. by eexists.
Qed.

(** The labels laid out by [melt] can be converted when there is no row or
    every label is an integer of 64 bits. *)
Lemma astype_int_labels_ok (vals : DataFrame) (n : nat) :
  n = 0%nat \/ Forall (fun c => int64_label c.1) vals ->
  astype_int (List.concat (List.map (fun c => repeat (VStr c.1) n) vals))
  = Ok (List.concat (List.map (fun c => repeat (year_cell c.1) n) vals)).
Proof.
  intros H. induction vals as [|[l col] vals IH]; simpl; [done|].
  rewrite astype_int_app, astype_int_repeat, IH.
  - destruct n as [|n]; [done|]. destruct H as [H|H]; [done|].
    apply Forall_cons in H as [Hl _]. cbn [fst] in Hl.
    by rewrite (int_of_value_int64_label _ Hl).
  - destruct H as [H|H]; [by left|]. right. by apply Forall_cons in H as [_ H].
Qed.

Lemma value_columns_lengths (df : DataFrame) :
  well_formed df ->
  Forall (fun c => length c.2 = nrows df) (value_columns df id_vars).
Proof.
  intros Hwf. apply Forall_forall. intros [n c] Hin.
  apply elem_of_value_columns in Hin as [Hin _].
  by eapply well_formed_length.
Qed.

(** X6.  The long table of a well-formed wide table has the four columns
    [country], [ISO2], [year], [hours] in this order, is well formed, has
    one row per row and value column of the wide table, and its [year]
    column holds integers only. *)
Theorem pivot_data_shape (df long : DataFrame) :
  well_formed df -> pivot_data df = Ok long ->
  column_names long = ["country"; "ISO2"; "year"; "hours"] /\
  well_formed long /\
  nrows long = (length (value_columns df id_vars) * nrows df)%nat /\
  exists year, getitem long "year" = Ok year /\
    Forall (fun y => exists z, y = VInt z) year.
Proof.
  intros Hwf Hp.
  destruct (pivot_data_inv _ _ Hp) as (country & iso & Hc & Hi & Hh).
  rewrite (pivot_data_unfold _ _ _ Hc Hi Hh) in Hp. cbn zeta in Hp.
  destruct (astype_int _) as [ys|] eqn:Eys; [|done].
  cbn [mbind result_bind] in Hp. injection Hp as <-.
  apply astype_int_ints in Eys as [Hlen Hints].
  assert (Hlc : length country = nrows df).
  { eapply well_formed_length; [done|]. by apply getitem_elem_of. }
  assert (Hli : length iso = nrows df).
  { eapply well_formed_length; [done|]. by apply getitem_elem_of. }
  pose proof (value_columns_lengths df Hwf) as Hvals.
  assert (Hly : length ys = (length (value_columns df id_vars) * nrows df)%nat).
  { rewrite Hlen. apply length_concat_uniform.
    apply Forall_forall. intros c _. apply repeat_length. }
  assert (Hlh : length (List.concat (List.map snd (value_columns df id_vars)))
                = (length (value_columns df id_vars) * nrows df)%nat)
    by (by apply length_concat_uniform).
  split; [reflexivity|]. split; [|split].
  - split; [apply (bool_decide_unpack _); by vm_compute|].
    cbn [nrows]. rewrite length_tile, Hlc.
    repeat constructor; cbn [snd]; rewrite ?length_tile; congruence.
  - cbn [nrows]. by rewrite length_tile, Hlc.
  - exists ys. by split.
Qed.

Lemma pivot_data_shape_witness :
  let wide := [ ("country", [VStr "France"; VStr "Spain"]);
                ("2023", [VFloat (361 # 10); VFloat (364 # 10)]);
                ("2024", [VFloat (358 # 10); VFloat (363 # 10)]);
                ("ISO2", [VStr "FR"; VStr "ES"]) ] in
  exists long,
    pivot_data wide = Ok long /\
    column_names long = ["country"; "ISO2"; "year"; "hours"] /\
    nrows long = 4%nat.
Proof.
  intros wide.
  assert (Hwf : well_formed wide).
  { split; [apply (bool_decide_unpack _); by vm_compute|].
    unfold wide. repeat constructor. }
  eexists. split; [vm_compute; reflexivity|].
  match goal with |- column_names ?l = _ /\ _ =>
    assert (Hp : pivot_data wide = Ok l) by (vm_compute; reflexivity);
    destruct (pivot_data_shape wide l Hwf Hp) as (H1 & _ & H2 & _)
  end.
  split; [exact H1|exact H2].
Defined.

(** ** The local snapshot *)

Lemma zip_fst_snd {A B : Type} (l : list A) (k : list B) :
  length l = length k -> (zip l k).*1 = l /\ (zip l k).*2 = k.
Proof.
  revert k. induction l as [|x l IH]; intros [|y k]; simpl; try done.
  intros [= Hlen]. destruct (IH k Hlen) as [H1 H2].
  split; f_equal; [exact H1|exact H2].
Qed.

(** X9.  [read_data] returns a table exactly when the sheet has eleven
    columns; the table then has the labels [country], [2015] .. [2024] in
    this order over the columns of the sheet, unchanged.  A sheet of
    another width is a [ValueError], and an exception of the read is
    passed on. *)
Theorem read_data_columns (cols : list (list value)) :
  ((exists df, read_data (Ok cols) = Ok df) <-> length cols = 11%nat) /\
  (forall df, read_data (Ok cols) = Ok df ->
     column_names df = local_columns /\ df.*2 = cols) /\
  (length cols <> 11%nat ->
     read_data (Ok cols) = Raise (ValueError "Length mismatch")) /\
  (forall e, read_data (Raise e) = Raise e).
Proof.
  assert (Hread : read_data (Ok cols)
                  = if (length cols =? 11)%nat then Ok (zip local_columns cols)
                    else Raise (ValueError "Length mismatch")) by reflexivity.
  rewrite Hread. clear Hread.
  destruct (length cols =? 11)%nat eqn:E.
  - apply Nat.eqb_eq in E. split; [split; [done|by eexists]|].
    split; [|split; [done|done]].
    intros df Hdf. assert (df = zip local_columns cols) as -> by congruence.
    unfold column_names. apply zip_fst_snd. by rewrite E.
  - apply Nat.eqb_neq in E. split; [split; [by intros [df [=]]|done]|].
    split; [by intros df [=]|]. by split.
Qed.

Lemma read_data_columns_witness :
  exists df, read_data (Ok sample_sheet) = Ok df /\
    column_names df = local_columns /\ df.*2 = sample_sheet.
Proof.
  destruct (proj2 (proj1 (read_data_columns sample_sheet)) eq_refl) as [df Hdf].
  exists df. split; [exact Hdf|].
  exact (proj1 (proj2 (read_data_columns sample_sheet)) df Hdf).
Defined.

(** ** The greatest year of a column *)

Lemma list_max_exists (l : list Z) :
  l <> [] -> exists m, m ∈ l /\ forall y, y ∈ l -> y <= m.
Proof.
  induction l as [|x l IH]; [done|]. intros _.
  destruct l as [|x' l].
  - exists x. split; [by left|]. intros y Hy.
    apply list_elem_of_singleton in Hy. lia.
  - destruct IH as (m & Hm & Hmax); [done|].
    exists (Z.max x m). split.
    + destruct (Z.max_spec x m) as [[_ ->]|[_ ->]]; [by right|by left].
    + intros y [->|Hy]%elem_of_cons; [lia|]. specialize (Hmax y Hy). lia.
Qed.

Lemma elem_of_omap_as_int (col : list value) (y : Z) :
  y ∈ omap as_int col <-> VInt y ∈ col.
Proof.
  rewrite list_elem_of_omap. split.
  - intros (v & Hin & Hv). destruct v; try discriminate. by injection Hv as ->.
  - intros Hin. by exists (VInt y).
Qed.

(** ** The fallback path end to end *)

Lemma elem_of_repeat {A : Type} (x y : A) (n : nat) : y ∈ repeat x n -> y = x.
Proof. rewrite list_elem_of_In. apply repeat_spec. Qed.

(** X10.  On the fallback path the pipeline cannot fail after the
    snapshot has been read: for a sheet of eleven columns of equal length,
    the local strategy returns a well-formed table with one row per row of
    the sheet, [pivot_data] accepts it and returns ten rows per row of the
    sheet, every year of the long table lies between 2015 and 2024, and
    the year selected at first is 2024. *)
Theorem local_pipeline_succeeds (cols : list (list value)) (n : nat) :
  length cols = 11%nat -> Forall (fun c => length c = n) cols ->
  exists df long,
    local_strategy (Ok cols) = Ok df /\ well_formed df /\ nrows df = n /\
    pivot_data df = Ok long /\ nrows long = (10 * n)%nat /\
    (forall year y, getitem long "year" = Ok year -> VInt y ∈ year ->
       2015 <= y <= 2024) /\
    main_year_selected long = Ok 2024.
Proof.
  intros Hlen Hall.
  destruct cols as [|c0 [|c1 [|c2 [|c3 [|c4 [|c5 [|c6 [|c7 [|c8 [|c9 [|c10 [|]]]]]]]]]]]];
    try discriminate.
  clear Hlen. apply Forall_cons in Hall as [Hn Hall]. subst n.
  repeat match goal with
  | H : Forall _ (_ :: _) |- _ => apply Forall_cons in H as [? H]
  end.
  clear Hall. set (n := length c0) in *.
  set (iso := series_map new_dict c0).
  set (df := [ ("country", c0); ("2015", c1); ("2016", c2); ("2017", c3);
               ("2018", c4); ("2019", c5); ("2020", c6); ("2021", c7);
               ("2022", c8); ("2023", c9); ("2024", c10); ("ISO2", iso) ]).
  assert (Hiso : length iso = n) by (unfold iso, series_map; by rewrite length_map).
  assert (Hdf : local_strategy (Ok [c0; c1; c2; c3; c4; c5; c6; c7; c8; c9; c10]) = Ok df)
    by reflexivity.
  assert (Hwf : well_formed df).
  { split; [apply (bool_decide_unpack _); by vm_compute|].
    assert (Hc0 : length c0 = n) by reflexivity.
    unfold df. cbn [nrows]. fold n.
    repeat (apply Forall_cons; split; [cbn [snd]; congruence|]). constructor. }
  set (year := repeat (VInt 2015) n ++ repeat (VInt 2016) n ++ repeat (VInt 2017) n
               ++ repeat (VInt 2018) n ++ repeat (VInt 2019) n ++ repeat (VInt 2020) n
               ++ repeat (VInt 2021) n ++ repeat (VInt 2022) n ++ repeat (VInt 2023) n
               ++ repeat (VInt 2024) n ++ []).
  set (long := [ ("country", tile c0 10); ("ISO2", tile iso 10); ("year", year);
                 ("hours", c1 ++ c2 ++ c3 ++ c4 ++ c5 ++ c6 ++ c7 ++ c8 ++ c9
                           ++ c10 ++ []) ]).
  assert (Hp : pivot_data df = Ok long).
  { rewrite (pivot_data_unfold df c0 iso eq_refl eq_refl eq_refl). cbn zeta.
    change (value_columns df id_vars)
      with [ ("2015", c1); ("2016", c2); ("2017", c3); ("2018", c4); ("2019", c5);
             ("2020", c6); ("2021", c7); ("2022", c8); ("2023", c9); ("2024", c10) ].
    change (nrows df) with n. rewrite astype_int_labels_ok.
    - reflexivity.
    - right.
      repeat (apply List.Forall_cons;
              [cbn [fst]; eexists; split; reflexivity|]).
      apply List.Forall_nil. }
  assert (Hyears : forall y, VInt y ∈ year -> 2015 <= y <= 2024).
  { intros y Hy. unfold year in Hy.
    repeat (apply elem_of_app in Hy as [Hy|Hy];
            [apply elem_of_repeat in Hy; injection Hy as ->; lia|]).
    by apply elem_of_nil in Hy. }
  exists df, long. split; [exact Hdf|]. split; [exact Hwf|].
  split; [reflexivity|]. split; [exact Hp|].
  split; [cbn [long nrows]; by rewrite length_tile|].
  split.
  - intros year' y [= <-]. apply Hyears.
  - destruct c0 as [|v0 c0']; [reflexivity|].
    unfold main_year_selected. change (getitem long "year") with (Ok year).
    cbn [mbind result_bind].
    rewrite (sorted_unique_last _ 2024); [reflexivity| |].
    + apply elem_of_omap_as_int. unfold year.
      do 9 (apply elem_of_app; right). apply elem_of_app. left. by left.
    + intros y Hy. apply elem_of_omap_as_int in Hy. apply Hyears in Hy. lia.
Qed.

Lemma local_pipeline_succeeds_witness :
  exists df long,
    local_strategy (Ok sample_sheet) = Ok df /\
    pivot_data df = Ok long /\ nrows long = 20%nat /\
    main_year_selected long = Ok 2024.
Proof.
  destruct (local_pipeline_succeeds sample_sheet 2 eq_refl)
    as (df & long & H1 & _ & _ & H2 & H3 & _ & H4).
  - unfold sample_sheet. repeat constructor.
  - by exists df, long.
Defined.

(** ** Shapes of a click *)

(** With an entry under the name, extraction depends on that entry only. *)
Lemma extract_selected_country_selection (event : pyval) (selection_name : string)
    (sel : pyval) :
  selection_of event selection_name = Some sel ->
  extract_selected_country event selection_name
  = match sel with
    | PList (first :: _) => py_get first "country" PNone
    | PDict d =>
        match dict_get d "country" with
        | Some v => Ok (match v with PList (v0 :: _) => v0 | _ => v end)
        | None =>
            match dict_get d "values" with
            | Some values =>
                if truthy values
                then first ← py_first values; py_get first "country" PNone
                else Ok PNone
            | None => Ok PNone
            end
        end
    | _ => Ok PNone
    end.
Proof.
  unfold selection_of, extract_selected_country.
  destruct event as [| | | | | |d]; try discriminate.
  destruct (dict_get d "selection") as [[| | | | | |s]|] eqn:Hd; try discriminate.
  destruct d as [|kv d]; [discriminate|].
  cbn [truthy py_get]. rewrite Hd. cbn [from_option id mbind result_bind py_get].
  intros ->. reflexivity.
Qed.

(** X12.  The shapes [extract_selected_country] recognises.  A non-empty
    list of records gives the [country] of its first record ([None] when
    that record has none).  A dict with a [country] key gives the first
    element when the entry is a non-empty list and the entry itself
    otherwise, whatever the dict holds under [values].  A dict without
    [country] whose [values] is a non-empty list of records gives the
    [country] of the first of them. *)
Theorem extract_selected_country_shapes (event : pyval) (selection_name : string)
    (sel : pyval) :
  selection_of event selection_name = Some sel ->
  (forall r rest, sel = PList (PDict r :: rest) ->
     extract_selected_country event selection_name
     = Ok (from_option id PNone (dict_get r "country"))) /\
  (forall d v0 rest, sel = PDict d ->
     dict_get d "country" = Some (PList (v0 :: rest)) ->
     extract_selected_country event selection_name = Ok v0) /\
  (forall d v, sel = PDict d -> dict_get d "country" = Some v ->
     nonempty_list v = false ->
     extract_selected_country event selection_name = Ok v) /\
  (forall d r rest, sel = PDict d -> dict_get d "country" = None ->
     dict_get d "values" = Some (PList (PDict r :: rest)) ->
     extract_selected_country event selection_name
     = Ok (from_option id PNone (dict_get r "country"))).
Proof.
  intros Hsel. rewrite (extract_selected_country_selection _ _ _ Hsel).
  split; [|split; [|split]].
  - by intros r rest ->.
  - intros d v0 rest -> Hc. by rewrite Hc.
  - intros d v -> Hc Hv. rewrite Hc. by destruct v as [| | | | |[|x l]|].
  - intros d r rest -> Hc Hv. by rewrite Hc, Hv.
Qed.

Lemma extract_selected_country_shapes_witness :
  extract_selected_country
    (PDict [("selection",
       PDict [("country_click", PList [PDict [("country", PStr "Spain")]])])])
    "country_click" = Ok (PStr "Spain") /\
  extract_selected_country
    (PDict [("selection",
       PDict [("country_click", PDict [("country", PList [PStr "Italy"])])])])
    "country_click" = Ok (PStr "Italy").
Proof.
  split.
  - exact (proj1 (extract_selected_country_shapes
             (PDict [("selection",
                PDict [("country_click", PList [PDict [("country", PStr "Spain")]])])])
             "country_click" _ eq_refl) _ _ eq_refl).
  - exact (proj1 (proj2 (extract_selected_country_shapes
             (PDict [("selection",
                PDict [("country_click", PDict [("country", PList [PStr "Italy"])])])])
             "country_click" _ eq_refl)) _ _ _ eq_refl eq_refl).
Defined.

(** X13.  Where [extract_selected_country] raises an [AttributeError]: on
    a truthy event that is not a dict, on an event whose [selection] entry
    is not a dict, and on a selection that is a non-empty list whose first
    element is not a record. *)
Theorem extract_selected_country_attribute_errors (event : pyval)
    (selection_name : string) :
  (truthy event = true -> is_record event = false ->
     extract_selected_country event selection_name
     = Raise (AttributeError "object has no attribute 'get'")) /\
  (forall d s, event = PDict d -> dict_get d "selection" = Some s ->
     is_record s = false ->
     extract_selected_country event selection_name
     = Raise (AttributeError "object has no attribute 'get'")) /\
  (forall x rest, selection_of event selection_name = Some (PList (x :: rest)) ->
     is_record x = false ->
     extract_selected_country event selection_name
     = Raise (AttributeError "object has no attribute 'get'")).
Proof.
  split; [|split].
  - intros Ht Hr. unfold extract_selected_country. rewrite Ht.
    by destruct event.
  - intros d s -> Hd Hs. unfold extract_selected_country.
    destruct d as [|kv d]; [discriminate|].
    cbn [truthy py_get]. rewrite Hd. cbn [from_option id mbind result_bind].
    by destruct s.
  - intros x rest Hsel Hx.
    rewrite (extract_selected_country_selection _ _ _ Hsel). by destruct x.
Qed.

Lemma extract_selected_country_attribute_errors_witness :
  extract_selected_country (PStr "click") "country_click"
    = Raise (AttributeError "object has no attribute 'get'") /\
  extract_selected_country (PDict [("selection", PNone)]) "country_click"
    = Raise (AttributeError "object has no attribute 'get'").
Proof.
  split.
  - exact (proj1 (extract_selected_country_attribute_errors (PStr "click")
             "country_click") eq_refl eq_refl).
  - exact (proj1 (proj2 (extract_selected_country_attribute_errors
             (PDict [("selection", PNone)]) "country_click"))
             [("selection", PNone)] PNone eq_refl eq_refl eq_refl).
Defined.

(** ** Rows kept by a mask *)

Lemma getitem_select_rows_inv (mask : list bool) (df : DataFrame) (name : string)
    (c : list value) :
  getitem (select_rows mask df) name = Ok c ->
  exists col, getitem df name = Ok col /\ c = select mask col.
Proof.
  induction df as [|[n col] df IH]; simpl; [done|].
  destruct (String.eqb n name); [|done]. intros [= <-]. by exists col.
Qed.

Lemma select_Forall {A : Type} (f : A -> bool) (l : list A) :
  Forall (fun x => f x = true) (select (List.map f l) l).
Proof.
  rewrite select_filter. apply Forall_forall. intros x Hin.
  apply list_elem_of_In, filter_In in Hin. tauto.
Qed.

(** ** Data and colours of the map *)

Lemma cut_series_spec (hours bins_ : list value) :
  cut_series hours = Ok bins_ -> Forall2 (fun h b => cut_value h = Ok b) hours bins_.
Proof.
  revert bins_. induction hours as [|h hours IH]; intros bins_; simpl.
  - intros [= <-]. constructor.
  - destruct (cut_value h) as [b|] eqn:Eb; simpl; [|done].
    destruct (cut_series hours) as [bs|]; simpl; [|done].
    intros [= <-]. constructor; [done|]. by apply IH.
Qed.

Lemma cut_value_class (h b : value) :
  cut_value h = Ok b -> b = VNull \/ exists l, b = VStr l /\ l ∈ labels.
Proof.
  unfold cut_value. destruct (float_of_value h) as [x|]; [|done].
  cbn [mbind result_bind]. intros [= <-].
  destruct (hours_bin x) as [l|] eqn:El; [|by left]. right. exists l.
  split; [reflexivity|].
  pose proof (hours_bin_display_in_domain x) as Hin.
  unfold hours_bin_display in Hin. rewrite El in Hin.
  unfold color_domain in Hin. apply elem_of_cons in Hin as [->|Hin]; [|done].
  exfalso. revert El. destruct x as [q|]; [|done].
  unfold hours_bin, cut, bins, labels. cbn [searchsorted_left andb].
  q_cases; discriminate.
Qed.

(** X16.  The data [plot_map_value] hands to the map: the columns [ISO2],
    [country], [hours], [year], [hours_bin] in this order; only rows of the
    chosen year; and for every row the bin of its hours, a label of the
    legend or a missing value. *)
Theorem map_source_data_rows (df source_data : DataFrame) (year : Z) :
  map_source_data df year = Ok source_data ->
  column_names source_data = ["ISO2"; "country"; "hours"; "year"; "hours_bin"] /\
  exists years hours hours_bin,
    getitem source_data "year" = Ok years /\
    Forall (fun cell => cell_eqb cell (PInt year) = true) years /\
    getitem source_data "hours" = Ok hours /\
    getitem source_data "hours_bin" = Ok hours_bin /\
    Forall2 (fun h b => cut_value h = Ok b) hours hours_bin /\
    Forall (fun b => b = VNull \/ exists l, b = VStr l /\ l ∈ labels) hours_bin.
Proof.
  unfold map_source_data.
  destruct (getitem df "year") as [years|] eqn:Hyears; [|done].
  cbn [mbind result_bind getitems].
  set (mask := List.map (fun cell => cell_eqb cell (PInt year)) years).
  destruct (getitem (select_rows mask df) "ISO2") as [iso|] eqn:Hiso; [|done].
  destruct (getitem (select_rows mask df) "country") as [country|] eqn:Hc; [|done].
  destruct (getitem (select_rows mask df) "hours") as [hours|] eqn:Hh; [|done].
  rewrite (getitem_select_rows mask df "year" years Hyears).
  cbn [mbind result_bind getitem String.eqb Ascii.eqb Bool.eqb].
  destruct (cut_series hours) as [hours_bin|] eqn:Hb; [|done].
  cbn [mbind result_bind]. intros [= <-].
  split; [reflexivity|].
  exists (select mask years), hours, hours_bin.
  split; [reflexivity|]. split; [apply select_Forall|].
  split; [reflexivity|]. split; [reflexivity|].
  pose proof (cut_series_spec _ _ Hb) as H2. split; [exact H2|].
  clear -H2. induction H2 as [|h b hs bs Hhb _ IH]; constructor; [|exact IH].
  by eapply cut_value_class.
Qed.

Lemma map_source_data_rows_witness :
  let df_long :=
    [ ("country", [VStr "France"; VStr "Spain"; VStr "Spain"]);
      ("ISO2", [VStr "FR"; VStr "ES"; VStr "ES"]);
      ("year", [VInt 2024; VInt 2023; VInt 2024]);
      ("hours", [VFloat (358 # 10); VFloat (364 # 10); VNull]) ] in
  map_source_data df_long 2024
    = Ok [ ("ISO2", [VStr "FR"; VStr "ES"]); ("country", [VStr "France"; VStr "Spain"]);
           ("hours", [VFloat (358 # 10); VNull]); ("year", [VInt 2024; VInt 2024]);
           ("hours_bin", [VStr "36-40"; VNull]) ] /\
  column_names
    [ ("ISO2", [VStr "FR"; VStr "ES"]); ("country", [VStr "France"; VStr "Spain"]);
      ("hours", [VFloat (358 # 10); VNull]); ("year", [VInt 2024; VInt 2024]);
      ("hours_bin", [VStr "36-40"; VNull]) ]
    = ["ISO2"; "country"; "hours"; "year"; "hours_bin"].
Proof.
  intros df_long.
  assert (H : map_source_data df_long 2024
    = Ok [ ("ISO2", [VStr "FR"; VStr "ES"]); ("country", [VStr "France"; VStr "Spain"]);
           ("hours", [VFloat (358 # 10); VNull]); ("year", [VInt 2024; VInt 2024]);
           ("hours_bin", [VStr "36-40"; VNull]) ]) by (vm_compute; reflexivity).
  split; [exact H|].
  exact (proj1 (map_source_data_rows df_long _ 2024 H)).
Defined.

(** X17.  Binning is monotone: of two numbers of hours that both fall in a
    bin, the greater one never gets an earlier label of the legend. *)
Theorem hours_bin_monotone (h1 h2 : Q) (l1 l2 : string) :
  (h1 <= h2)%Q ->
  hours_bin (Some h1) = Some l1 -> hours_bin (Some h2) = Some l2 ->
  exists i1 i2,
    index_of l1 labels = Some i1 /\ index_of l2 labels = Some i2 /\ (i1 <= i2)%nat.
Proof.
  intros Hle. unfold hours_bin, cut, bins, labels.
  cbn [searchsorted_left andb].
  destruct (Qeq_bool h1 10) eqn:?; destruct (Qle_bool h1 10) eqn:?;
    [| |discriminate|];
    repeat match goal with
    | |- context [Qle_bool h1 ?b] => destruct (Qle_bool h1 b) eqn:?
    end;
    cbn; try discriminate; intros [= <-];
    (destruct (Qeq_bool h2 10) eqn:?; destruct (Qle_bool h2 10) eqn:?;
     [| |discriminate|];
     repeat match goal with
     | |- context [Qle_bool h2 ?b] => destruct (Qle_bool h2 b) eqn:?
     end;
     cbn; try discriminate; intros [= <-]);
    q_facts; try (exfalso; lra);
    do 2 eexists; (split; [reflexivity|]); (split; [reflexivity|]); lia.
Qed.

Lemma hours_bin_monotone_witness :
  exists i1 i2,
    index_of "21-30" labels = Some i1 /\ index_of "36-40" labels = Some i2 /\
    (i1 <= i2)%nat.
Proof.
  apply (hours_bin_monotone (25 # 1) (358 # 10)); [|reflexivity|reflexivity].
  unfold Qle. simpl. lia.
Defined.

(** X18.  Every class the map can show has a colour of the scale, the
    grey [no_data_color] is the colour of "No data" and of nothing else,
    and two classes never share a colour. *)
Theorem color_scale_total :
  (forall h : option Q, exists c,
     color_scale (hours_bin_display h) = Some c /\
     (c = no_data_color <-> hours_bin_display h = "No data")) /\
  (forall x y c, color_scale x = Some c -> color_scale y = Some c -> x = y).
Proof.
  split.
  - intros h. pose proof (hours_bin_display_in_domain h) as Hin.
    unfold color_domain, labels in Hin.
    repeat (apply elem_of_cons in Hin as [->|Hin]);
      [..|by apply elem_of_nil in Hin];
      eexists; (split; [reflexivity|]); split; intros; done.
  - intros x y c. unfold color_scale, color_domain, color_range, labels, bin_colors,
      no_data_color. cbn [scale].
    repeat match goal with
    | |- context [String.eqb ?a x] =>
        destruct (String.eqb_spec a x); [subst x|]
    end; intros [= <-];
    repeat match goal with
    | |- context [String.eqb ?a y] =>
        destruct (String.eqb_spec a y); [subst y|]
    end; intros [=]; try reflexivity.
Qed.

Lemma color_scale_total_witness :
  color_scale "No data" = Some no_data_color /\
  color_scale "46-60" = Some "#b30000" /\
  "No data" <> "46-60".
Proof.
  split; [reflexivity|]. split; [reflexivity|].
  intros Heq.
  pose proof (proj2 color_scale_total "No data" "46-60") as Hinj.
  discriminate Heq.
Defined.

(** ** Messages and schema changes *)

(** X19.  The messages of the acquisition block.  The error message of
    [download_data] is on the page exactly when the provider returned
    [None].  A page that shows remote data shows no message at all, and
    when the block raises, the fallback warning is not shown. *)
Theorem main_acquire_messages (response : result (option DataFrame))
    (sheet : result (list (list value))) :
  (forall msg, UiError msg ∈ (main_acquire response sheet).1 <->
     response = Ok None /\ msg = "Couldn't load Eurostat data right now.") /\
  (forall df, (main_acquire response sheet).2 = Ok (df, false) ->
     (main_acquire response sheet).1 = []) /\
  (forall e, (main_acquire response sheet).2 = Raise e ->
     fallback_warning ∉ (main_acquire response sheet).1).
Proof.
  unfold main_acquire.
  destruct response as [[df0|]|e0]; cbn [download_data].
  - destruct (_ ≫= _) as [df|e]; [|destruct (_ ≫= _) as [df|e']]; cbn [fst snd].
    + split; [|split]; [|done|intros e1 _; apply not_elem_of_nil].
      intros msg. split; [by intros ?%elem_of_nil|by intros [[=] _]].
    + split; [|split]; [|by intros ? [=]|by intros ? [=]].
      intros msg. split; [|by intros [[=] _]].
      intros H. apply list_elem_of_singleton in H. discriminate.
    + split; [|split]; [|by intros ? [=]|intros e1 _; apply not_elem_of_nil].
      intros msg. split; [by intros ?%elem_of_nil|by intros [[=] _]].
  - cbn [mbind result_bind].
    destruct (_ ≫= _) as [df|e']; cbn [fst snd].
    + split; [|split]; [|by intros ? [=]|by intros ? [=]].
      intros msg. split.
      * intros [[= ->]|H]%elem_of_cons; [done|].
        apply list_elem_of_singleton in H. discriminate.
      * intros [_ ->]. by left.
    + split; [|split]; [|by intros ? [=]|].
      * intros msg. split.
        -- intros H. apply list_elem_of_singleton in H. by injection H as ->.
        -- intros [_ ->]. by left.
      * intros e1 _ H. apply list_elem_of_singleton in H. discriminate.
  - cbn [mbind result_bind].
    destruct (_ ≫= _) as [df|e']; cbn [fst snd].
    + split; [|split]; [|by intros ? [=]|by intros ? [=]].
      intros msg. split; [|by intros [[=] _]].
      intros H. apply list_elem_of_singleton in H. discriminate.
    + split; [|split]; [|by intros ? [=]|intros e1 _; apply not_elem_of_nil].
      intros msg. split; [by intros ?%elem_of_nil|by intros [[=] _]].
Qed.

Lemma main_acquire_messages_witness :
  (main_acquire (Ok (Some sample_response)) (Ok sample_sheet)).2
    = Ok ([ ("ISO2", [VStr "FR"]); ("2023", [VFloat (359 # 10)]);
            ("2024", [VFloat (358 # 10)]); ("country", [VStr "France"]) ], false) /\
  (main_acquire (Ok (Some sample_response)) (Ok sample_sheet)).1 = [].
Proof.
  assert (H : (main_acquire (Ok (Some sample_response)) (Ok sample_sheet)).2
    = Ok ([ ("ISO2", [VStr "FR"]); ("2023", [VFloat (359 # 10)]);
            ("2024", [VFloat (358 # 10)]); ("country", [VStr "France"]) ], false))
    by (vm_compute; reflexivity).
  split; [exact H|].
  exact (proj1 (proj2 (main_acquire_messages (Ok (Some sample_response))
                         (Ok sample_sheet))) _ H).
Defined.

(** X20.  A response that has lost its country column is recovered by the
    fallback.  When the table of the provider has the seven dimension
    columns but neither [geo\TIME_PERIOD] nor [ISO2], [download_data]
    still returns a table, [rename_countries] then raises the [KeyError]
    of [ISO2] inside the [try] block, and [main] goes on with the local
    snapshot. *)
Theorem missing_geo_column_falls_back (df : DataFrame)
    (sheet : result (list (list value))) :
  Forall (fun n => has_column df n = true) dimension_columns ->
  has_column df "geo\TIME_PERIOD" = false -> has_column df "ISO2" = false ->
  (exists df', (download_data (Ok (Some df))).2 = Ok df') /\
  remote_strategy (Ok (Some df)) = Raise (KeyError "ISO2") /\
  (main_acquire (Ok (Some df)) sheet).2
    = (df ← local_strategy sheet; Ok (df, true)).
Proof.
  intros Hdims Hgeo Hiso.
  assert (Hdl : (download_data (Ok (Some df))).2
                = Ok (rename (List.filter (fun c => negb (mem c.1 dimension_columns)) df)
                        "geo\TIME_PERIOD" "ISO2")).
  { cbn [download_data snd]. by rewrite (drop_present _ _ Hdims). }
  assert (Hnew : has_column
            (rename (List.filter (fun c => negb (mem c.1 dimension_columns)) df)
               "geo\TIME_PERIOD" "ISO2") "ISO2" = false).
  { unfold has_column. rewrite mem_false. intros Hin.
    unfold column_names, rename in Hin.
    apply list_elem_of_fmap in Hin as ([n c] & Hn & Hin). cbn [fst] in Hn. subst n.
    apply list_elem_of_In, in_map_iff in Hin as ([n' c'] & Heq & Hin).
    apply filter_In in Hin as [Hin _]. apply list_elem_of_In in Hin. cbn [fst] in *.
    destruct (String.eqb n' "geo\TIME_PERIOD") eqn:E.
    - apply String.eqb_eq in E as ->.
      unfold has_column in Hgeo. apply mem_false in Hgeo. apply Hgeo.
      apply list_elem_of_fmap. by exists ("geo\TIME_PERIOD", c').
    - injection Heq as -> ->.
      unfold has_column in Hiso. apply mem_false in Hiso. apply Hiso.
      apply list_elem_of_fmap. by exists ("ISO2", c). }
  assert (Hremote : remote_strategy (Ok (Some df)) = Raise (KeyError "ISO2")).
  { unfold remote_strategy. rewrite Hdl. cbn [mbind result_bind].
    unfold rename_countries. cbn [negb]. by rewrite (getitem_missing _ _ Hnew). }
  split; [by eexists|]. split; [exact Hremote|].
  unfold main_acquire, remote_strategy, local_strategy in *.
  destruct (download_data (Ok (Some df))) as [log downloaded]. cbn [snd] in *.
  rewrite Hremote.
  destruct (read_data sheet ≫= _) as [local|e]; reflexivity.
Qed.

Lemma missing_geo_column_falls_back_witness :
  let response :=
    [ ("freq", [VStr "A"]); ("isco08", [VStr "TOTAL"]); ("wstatus", [VStr "EMP"]);
      ("worktime", [VStr "TOTAL"]); ("age", [VStr "Y15-64"]); ("unit", [VStr "HR"]);
      ("sex", [VStr "T"]); ("geo", [VStr "FR"]); ("2024", [VFloat (358 # 10)]) ] in
  remote_strategy (Ok (Some response)) = Raise (KeyError "ISO2") /\
  (main_acquire (Ok (Some response)) (Raise (OtherError "no such file"))).2
    = Raise (OtherError "no such file").
Proof.
  intros response.
  destruct (missing_geo_column_falls_back response (Raise (OtherError "no such file")))
    as (_ & H1 & H2).
  - unfold dimension_columns. repeat constructor.
  - reflexivity.
  - reflexivity.
  - split; [exact H1|exact H2].
Defined.

Lemma has_column_select_rows (mask : list bool) (df : DataFrame) (name : string) :
  has_column (select_rows mask df) name = has_column df name.
Proof. unfold has_column. by rewrite column_names_select_rows. Qed.

Lemma has_column_setitem (df : DataFrame) (name other : string) (col : list value) :
  has_column (setitem df name col) other
  = has_column df other || String.eqb other name.
Proof.
  unfold has_column at 1. rewrite column_names_setitem.
  destruct (has_column df name) eqn:E.
  - fold (has_column df other). destruct (String.eqb_spec other name) as [->|Hne].
    + rewrite E. reflexivity.
    + by rewrite orb_false_r.
  - unfold has_column, mem. rewrite existsb_app. cbn [existsb].
    by rewrite orb_false_r.
Qed.

(** X21.  The table of the remote strategy has the columns [ISO2] and
    [country] and none of the seven dimension columns of the provider, so
    [pivot_data] can only fail on it for its other labels. *)
Theorem remote_strategy_columns (response : result (option DataFrame))
    (df : DataFrame) :
  remote_strategy response = Ok df ->
  has_column df "ISO2" = true /\ has_column df "country" = true /\
  Forall (fun n => has_column df n = false) dimension_columns.
Proof.
  unfold remote_strategy.
  destruct response as [[df0|]|e]; cbn [download_data snd]; [|done|done].
  unfold drop. destruct (List.find _ dimension_columns) eqn:Efind; [done|].
  cbn [mbind result_bind].
  set (kept := rename (List.filter (fun c => negb (mem c.1 dimension_columns)) df0)
                 "geo\TIME_PERIOD" "ISO2").
  intros H. apply rename_countries_remote_inv in H as (iso & Hiso & -> & _ & _).
  rewrite !has_column_select_rows, !has_column_setitem.
  split; [by rewrite (getitem_Ok_has_column _ _ _ Hiso)|].
  split; [by rewrite orb_true_r|].
  apply Forall_forall. intros n Hn. rewrite has_column_select_rows, has_column_setitem.
  apply orb_false_iff. split.
  - unfold has_column. apply mem_false. intros Hin.
    unfold column_names, kept, rename in Hin.
    apply list_elem_of_fmap in Hin as ([n0 c0] & Hn0 & Hin). cbn [fst] in Hn0. subst n0.
    apply list_elem_of_In, in_map_iff in Hin as ([n' c'] & Heq & Hin).
    apply filter_In in Hin as [_ Hkeep]. cbn [fst] in Hkeep.
    apply negb_true_iff, mem_false in Hkeep. cbn [fst snd] in Heq.
    destruct (String.eqb n' "geo\TIME_PERIOD").
    + injection Heq as <- _. revert Hn. unfold dimension_columns.
      intros Hn.
      repeat (apply elem_of_cons in Hn as [Hn|Hn]; [discriminate|]).
      by apply elem_of_nil in Hn.
    + injection Heq as -> _. by apply Hkeep.
  - revert Hn. unfold dimension_columns. intros Hn.
    repeat (apply elem_of_cons in Hn as [->|Hn]; [reflexivity|]).
    by apply elem_of_nil in Hn.
Qed.

Lemma remote_strategy_columns_witness :
  has_column
    [ ("ISO2", [VStr "FR"]); ("2023", [VFloat (359 # 10)]);
      ("2024", [VFloat (358 # 10)]); ("country", [VStr "France"]) ] "country" = true /\
  remote_strategy (Ok (Some sample_response))
    = Ok [ ("ISO2", [VStr "FR"]); ("2023", [VFloat (359 # 10)]);
           ("2024", [VFloat (358 # 10)]); ("country", [VStr "France"]) ].
Proof.
  assert (H : remote_strategy (Ok (Some sample_response))
    = Ok [ ("ISO2", [VStr "FR"]); ("2023", [VFloat (359 # 10)]);
           ("2024", [VFloat (358 # 10)]); ("country", [VStr "France"]) ])
    by (vm_compute; reflexivity).
  split; [|exact H].
  exact (proj1 (proj2 (remote_strategy_columns _ _ H))).
Defined.

(** ** Year labels *)




(** ** Default year of a long table *)

(** C8.  The year selected at first is the most recent year of the long
    table.  For a long table (distinct labels, a [year] column of
    integers) whose years are 2015..2024 it is 2024; in general it is the
    greatest year of the table.  The years are calendar years: the
    statement is for a greatest year other than 0, the one value that
    [or 2024] does not let through. *)
Theorem default_year_is_latest (df_long : DataFrame) (year : list value) :
  NoDup (column_names df_long) ->
  getitem df_long "year" = Ok year ->
  Forall (fun cell => exists z, cell = VInt z) year ->
  ((forall y, VInt y ∈ year <-> 2015 <= y <= 2024) ->
     main_year_selected df_long = Ok 2024) /\
  (forall m, VInt m ∈ year -> (forall y, VInt y ∈ year -> y <= m) -> m <> 0 ->
     main_year_selected df_long = Ok m).
Proof.
  intros _ Hyear _.
  assert (Hgen : forall m, VInt m ∈ year -> (forall y, VInt y ∈ year -> y <= m) ->
            m <> 0 -> main_year_selected df_long = Ok m).
  { intros m Hm Hmax Hm0. unfold main_year_selected. rewrite Hyear.
    cbn [mbind result_bind].
    rewrite (sorted_unique_last _ m).
    - cbn [mbind result_bind or_2024]. apply Z.eqb_neq in Hm0. by rewrite Hm0.
    - by apply elem_of_omap_as_int.
    - intros y Hy. apply Hmax. by apply elem_of_omap_as_int. }
  split; [|exact Hgen].
  intros Hset. apply (Hgen 2024).
  - apply Hset. lia.
  - intros y Hy. apply Hset in Hy. lia.
  - lia.
Qed.

Lemma default_year_is_latest_witness :
  let df_long :=
    [ ("country", [VStr "France"; VStr "France"; VStr "France"]);
      ("ISO2", [VStr "FR"; VStr "FR"; VStr "FR"]);
      ("year", [VInt 2024; VInt 2015; VInt 2023]);
      ("hours", [VFloat (358 # 10); VFloat (372 # 10); VFloat (361 # 10)]) ] in
  main_year_selected df_long = Ok 2024.
Proof.
  intros df_long.
  refine (proj2 (default_year_is_latest df_long
            [VInt 2024; VInt 2015; VInt 2023] _ eq_refl _) 2024 _ _ _).
  - apply (bool_decide_unpack _). by vm_compute.
  - repeat constructor; by eexists.
  - by left.
  - intros y Hy.
    repeat (apply elem_of_cons in Hy as [Hy|Hy]; [injection Hy as ->; lia|]).
    by apply elem_of_nil in Hy.
  - lia.
Defined.

(** X11.  On a long table (distinct labels, a [year] column of integers)
    the year selection of [main] never raises: the index it passes to the
    select box is always valid.  The selected year is never 0, and it is a
    year of the table or the constant 2024.  Without a [year] column it is
    the [KeyError] of that label. *)
Theorem main_year_selected_total (df_long : DataFrame) :
  (forall year,
     NoDup (column_names df_long) -> getitem df_long "year" = Ok year ->
     Forall (fun cell => exists z, cell = VInt z) year ->
     exists y, main_year_selected df_long = Ok y /\ y <> 0 /\
       (y = 2024 \/ VInt y ∈ year)) /\
  (has_column df_long "year" = false ->
     main_year_selected df_long = Raise (KeyError "year")).
Proof.
  split.
  - intros year _ Hyear _. unfold main_year_selected. rewrite Hyear.
    cbn [mbind result_bind].
    destruct (omap as_int year) as [|y0 ys] eqn:E.
    + exists 2024. cbn. split; [done|]. split; [lia|by left].
    + rewrite <- E.
      destruct (list_max_exists (omap as_int year)) as (m & Hm & Hmax);
        [by rewrite E|].
      rewrite (sorted_unique_last _ m Hm Hmax). cbn [mbind result_bind or_2024].
      destruct (m =? 0) eqn:E0.
      * exists 2024. split; [done|]. split; [lia|by left].
      * apply Z.eqb_neq in E0. exists m. split; [done|]. split; [done|].
        right. by apply elem_of_omap_as_int.
  - intros H. unfold main_year_selected. by rewrite (getitem_missing _ _ H).
Qed.

Lemma main_year_selected_total_witness :
  exists y, main_year_selected [("year", [VInt 2023; VInt 2021])] = Ok y /\ y <> 0.
Proof.
  destruct (proj1 (main_year_selected_total [("year", [VInt 2023; VInt 2021])])
              [VInt 2023; VInt 2021]) as (y & H1 & H2 & _).
  - apply (bool_decide_unpack _). by vm_compute.
  - reflexivity.
  - repeat constructor; by eexists.
  - by exists y.
Defined.

(** ** Errors of the annotation and of the pivot *)

(** X4.  On a table with distinct labels [rename_countries] raises
    exactly when the column it reads is missing: [ISO2] on the remote
    path, [country] on the local path; the exception is the [KeyError] of
    that label. *)
Theorem rename_countries_raises_iff (df : DataFrame) :
  NoDup (column_names df) ->
  (raises (rename_countries df false) <-> has_column df "ISO2" = false) /\
  (has_column df "ISO2" = false ->
     rename_countries df false = Raise (KeyError "ISO2")) /\
  (raises (rename_countries df true) <-> has_column df "country" = false) /\
  (has_column df "country" = false ->
     rename_countries df true = Raise (KeyError "country")).
Proof.
  intros _.
  assert (Hr : has_column df "ISO2" = false ->
               rename_countries df false = Raise (KeyError "ISO2")).
  { intros H. unfold rename_countries. cbn [negb].
    by rewrite (getitem_missing _ _ H). }
  assert (Hl : has_column df "country" = false ->
               rename_countries df true = Raise (KeyError "country")).
  { intros H. unfold rename_countries. cbn [negb].
    by rewrite (getitem_missing _ _ H). }
  split; [|split; [exact Hr|split; [|exact Hl]]].
  - split; [|by intros ->%Hr].
    destruct (has_column df "ISO2") eqn:E; [|done]. intros Hraise. exfalso.
    destruct (getitem_present _ _ E) as [iso Hiso].
    unfold rename_countries, dropna in Hraise. cbn [negb] in Hraise.
    rewrite Hiso in Hraise. cbn [mbind result_bind] in Hraise.
    rewrite getitem_setitem_eq in Hraise. exact Hraise.
  - split; [|by intros ->%Hl].
    destruct (has_column df "country") eqn:E; [|done]. intros Hraise. exfalso.
    destruct (getitem_present _ _ E) as [names Hnames].
    unfold rename_countries in Hraise. cbn [negb] in Hraise.
    rewrite Hnames in Hraise. exact Hraise.
Qed.

Lemma rename_countries_raises_iff_witness :
  rename_countries [("country", [VStr "France"])] false = Raise (KeyError "ISO2") /\
  rename_countries [("ISO2", [VStr "FR"])] true = Raise (KeyError "country").
Proof.
  split.
  - refine (proj1 (proj2 (rename_countries_raises_iff [("country", [VStr "France"])] _))
              eq_refl).
    apply (bool_decide_unpack _). by vm_compute.
  - refine (proj2 (proj2 (proj2 (rename_countries_raises_iff [("ISO2", [VStr "FR"])] _)))
              eq_refl).
    apply (bool_decide_unpack _). by vm_compute.
Defined.






(** ** The history view *)

Lemma cell_eqb_string (cell : value) (name : string) :
  cell_eqb cell (PStr name) = bool_decide (cell = VStr name).
Proof.
  destruct cell as [|s|z|q]; cbn [cell_eqb];
    try (symmetry; by apply bool_decide_eq_false).
  destruct (String.eqb_spec s name) as [->|Hne]; symmetry.
  - by apply bool_decide_eq_true.
  - apply bool_decide_eq_false. by intros [= ->].
Qed.

(** [show_history] for a name: the rows whose [country] cell is that name. *)
Lemma show_history_name (df : DataFrame) (name : string) (names : list value) :
  getitem df "country" = Ok names ->
  show_history df (PStr name)
  = Ok (HistoryChart (PStr name)
          (select_rows (List.map (fun cell => bool_decide (cell = VStr name)) names) df)).
Proof.
  intros Hnames. unfold show_history. rewrite Hnames.
  cbn [mbind result_bind eq_column].
  by rewrite (List.map_ext _ _ (fun cell => cell_eqb_string cell name)).
Qed.

Lemma length_filter_mask {A : Type} (f : A -> bool) (l : list A) :
  length (List.filter id (List.map f l)) = length (List.filter f l).
Proof.
  induction l as [|x l IH]; [done|]. cbn [List.map List.filter].
  destruct (f x); cbn [id length]; by rewrite IH.
Qed.

(** X14.  [show_history] for a country name on a table with distinct
    labels plots the rows of that country and no other: the chart keeps
    the columns of the long table, every column is cut down to the rows
    whose [country] cell is the name, so its [country] column holds that
    name only, once per such row; a name that is not in the table gives a
    chart without rows, not an error.  Without a [country] column it is the
    [KeyError] of that label. *)
Theorem show_history_rows (df : DataFrame) (name : string) :
  NoDup (column_names df) ->
  (forall names, getitem df "country" = Ok names ->
     let kept := List.map (fun cell => bool_decide (cell = VStr name)) names in
     show_history df (PStr name) = Ok (HistoryChart (PStr name) (select_rows kept df)) /\
     column_names (select_rows kept df) = column_names df /\
     (forall label col, getitem df label = Ok col ->
        getitem (select_rows kept df) label = Ok (select kept col)) /\
     getitem (select_rows kept df) "country"
       = Ok (repeat (VStr name)
               (length (List.filter (fun cell => bool_decide (cell = VStr name)) names))) /\
     (well_formed df ->
        well_formed (select_rows kept df) /\
        nrows (select_rows kept df)
        = length (List.filter (fun cell => bool_decide (cell = VStr name)) names)) /\
     (well_formed df -> VStr name ∉ names -> nrows (select_rows kept df) = 0%nat)) /\
  (has_column df "country" = false ->
     show_history df (PStr name) = Raise (KeyError "country")).
Proof.
  intros _. split.
  - intros names Hnames kept.
    split; [by apply show_history_name|].
    split; [apply column_names_select_rows|].
    split; [intros label col Hcol; by apply getitem_select_rows|].
    assert (Hrows : well_formed df ->
              well_formed (select_rows kept df) /\
              nrows (select_rows kept df)
              = length (List.filter (fun cell => bool_decide (cell = VStr name)) names)).
    { intros Hwf.
      assert (Hlen : length kept = nrows df).
      { unfold kept. rewrite length_map. eapply well_formed_length; [done|].
        by apply getitem_elem_of. }
      split; [by apply select_rows_well_formed|].
      rewrite nrows_select_rows; [|by eapply getitem_nonempty|done].
      apply length_filter_mask. }
    split; [|split; [exact Hrows|]].
    + rewrite (getitem_select_rows kept df "country" names Hnames).
      unfold kept. rewrite select_filter. f_equal.
      clear. induction names as [|cell names IH]; [done|]. cbn [List.filter].
      case_bool_decide as Hcell; [|exact IH].
      subst cell. cbn [length repeat]. f_equal. exact IH.
    + intros Hwf Hnot. destruct (Hrows Hwf) as [_ ->].
      clear -Hnot. induction names as [|cell names IH]; [done|].
      apply not_elem_of_cons in Hnot as [Hne Hnot]. cbn [List.filter].
      case_bool_decide as Hcell; [by subst cell|by apply IH].
  - intros H. unfold show_history. by rewrite (getitem_missing _ _ H).
Qed.

Lemma show_history_rows_witness :
  let df_long :=
    [ ("country", [VStr "France"; VStr "Spain"; VStr "Spain"]);
      ("ISO2", [VStr "FR"; VStr "ES"; VStr "ES"]);
      ("year", [VInt 2024; VInt 2023; VInt 2024]);
      ("hours", [VFloat (358 # 10); VFloat (364 # 10); VFloat (363 # 10)]) ] in
  show_history df_long (PStr "Spain")
  = Ok (HistoryChart (PStr "Spain")
          [ ("country", [VStr "Spain"; VStr "Spain"]);
            ("ISO2", [VStr "ES"; VStr "ES"]);
            ("year", [VInt 2023; VInt 2024]);
            ("hours", [VFloat (364 # 10); VFloat (363 # 10)]) ]).
Proof.
  intros df_long.
  exact (proj1 (proj1 (show_history_rows df_long "Spain"
                  ltac:(apply (bool_decide_unpack _); by vm_compute))
                  [VStr "France"; VStr "Spain"; VStr "Spain"] eq_refl)).
Defined.

(** ** The second column of the page *)

Lemma plot_map_value_inv (df : DataFrame) (year : Z) (event clicked : pyval) :
  plot_map_value df year event = Ok clicked ->
  (exists source_data, map_source_data df year = Ok source_data) /\
  extract_selected_country event "country_click" = Ok clicked /\
  exists names, getitem df "country" = Ok names.
Proof.
  unfold plot_map_value.
  destruct (map_source_data df year) as [source_data|] eqn:Hmap; [|done].
  cbn [mbind result_bind]. intros Hclick.
  split; [by eexists|]. split; [exact Hclick|].
  unfold map_source_data in Hmap.
  destruct (getitem df "year") as [years|]; [|done].
  cbn [mbind result_bind getitems] in Hmap.
  destruct (getitem (select_rows _ df) "ISO2") as [iso|]; [|done].
  destruct (getitem (select_rows _ df) "country") as [country|] eqn:Hc; [|done].
  apply getitem_select_rows_inv in Hc as (names & Hnames & _). by exists names.
Qed.

(** C9, as the code has it.  The country of the history view depends on
    the event of the current run only.  On a long table with distinct
    labels, when the map returns a country name (a non-empty string), that
    name is the country to show; when it returns nothing ([None]) or an
    empty name, the country is "France".  The history chart is then built
    for exactly that country: it is titled with it and plots the rows of
    the long table whose [country] cell is that name, and no other row. *)
Theorem history_for_resolved_country (df_long : DataFrame) (year : Z)
    (event clicked : pyval) :
  NoDup (column_names df_long) ->
  plot_map_value df_long year event = Ok clicked ->
  exists names,
    getitem df_long "country" = Ok names /\
    (forall name, clicked = PStr name -> name <> "" ->
       country_to_show clicked = PStr name /\
       main_history df_long year event
       = Ok (HistoryChart (PStr name)
               (select_rows
                  (List.map (fun cell => bool_decide (cell = VStr name)) names)
                  df_long))) /\
    (clicked = PNone \/ clicked = PStr "" ->
       country_to_show clicked = PStr "France" /\
       main_history df_long year event
       = Ok (HistoryChart (PStr "France")
               (select_rows
                  (List.map (fun cell => bool_decide (cell = VStr "France")) names)
                  df_long))).
Proof.
  intros _ Hplot.
  destruct (plot_map_value_inv _ _ _ _ Hplot) as (_ & _ & names & Hnames).
  exists names. split; [exact Hnames|].
  unfold main_history. rewrite Hplot. cbn [mbind result_bind]. split.
  - intros name -> Hne.
    assert (Hshow : country_to_show (PStr name) = PStr name).
    { unfold country_to_show. cbn [truthy].
      destruct (String.eqb_spec name "") as [->|_]; [done|reflexivity]. }
    rewrite Hshow. split; [reflexivity|]. by apply show_history_name.
  - intros Hnone.
    assert (Hshow : country_to_show clicked = PStr "France")
      by (by destruct Hnone as [->| ->]).
    rewrite Hshow. split; [reflexivity|]. by apply show_history_name.
Qed.

Lemma history_for_resolved_country_witness :
  let df_long :=
    [ ("country", [VStr "France"; VStr "Spain"; VStr "Spain"]);
      ("ISO2", [VStr "FR"; VStr "ES"; VStr "ES"]);
      ("year", [VInt 2024; VInt 2023; VInt 2024]);
      ("hours", [VFloat (358 # 10); VFloat (364 # 10); VFloat (363 # 10)]) ] in
  let click := PDict [("selection",
                 PDict [("country_click", PList [PDict [("country", PStr "Spain")]])])] in
  plot_map_value df_long 2024 click = Ok (PStr "Spain") /\
  main_history df_long 2024 click
  = Ok (HistoryChart (PStr "Spain")
          [ ("country", [VStr "Spain"; VStr "Spain"]);
            ("ISO2", [VStr "ES"; VStr "ES"]);
            ("year", [VInt 2023; VInt 2024]);
            ("hours", [VFloat (364 # 10); VFloat (363 # 10)]) ]).
Proof.
  intros df_long click.
  assert (Hplot : plot_map_value df_long 2024 click = Ok (PStr "Spain"))
    by (vm_compute; reflexivity).
  split; [exact Hplot|].
  destruct (history_for_resolved_country df_long 2024 click (PStr "Spain")
              ltac:(apply (bool_decide_unpack _); by vm_compute) Hplot)
    as (names & Hnames & Hname & _).
  injection Hnames as <-.
  exact (proj2 (Hname "Spain" eq_refl ltac:(discriminate))).
Defined.

(** C9 as stated fails: no previous country is kept.  A run in which the
    user clicked Spain is followed by a run whose event carries no
    selection; the history view of the second run is for "France", not
    for the country of the run before. *)
Lemma cleared_selection_shows_france :
  let df_long :=
    [ ("country", [VStr "France"; VStr "Spain"]);
      ("ISO2", [VStr "FR"; VStr "ES"]);
      ("year", [VInt 2024; VInt 2024]);
      ("hours", [VFloat (358 # 10); VFloat (363 # 10)]) ] in
  let click := PDict [("selection",
                 PDict [("country_click", PList [PDict [("country", PStr "Spain")]])])] in
  let cleared := PDict [("selection", PDict [("country_click", PList [])])] in
  main_history df_long 2024 click
  = Ok (HistoryChart (PStr "Spain")
          [ ("country", [VStr "Spain"]); ("ISO2", [VStr "ES"]);
            ("year", [VInt 2024]); ("hours", [VFloat (363 # 10)]) ]) /\
  main_history df_long 2024 cleared
  = Ok (HistoryChart (PStr "France")
          [ ("country", [VStr "France"]); ("ISO2", [VStr "FR"]);
            ("year", [VInt 2024]); ("hours", [VFloat (358 # 10)]) ]) /\
  PStr "France" <> PStr "Spain".
Proof. cbv zeta. split; [by vm_compute|]. split; [by vm_compute|]. discriminate. Qed.

(** X15.  The history view is never asked for a falsy country: whenever
    the second column of the page gets to draw it, the data of the map
    have been prepared, and the country of the chart is truthy; it is the
    value extracted from the event, or "France". *)
Theorem main_history_country (df_long : DataFrame) (year : Z) (event : pyval)
    (chart : history_chart) :
  main_history df_long year event = Ok chart ->
  (exists source_data, map_source_data df_long year = Ok source_data) /\
  truthy (history_country chart) = true /\
  (history_country chart = PStr "France" \/
   extract_selected_country event "country_click" = Ok (history_country chart)).
Proof.
  unfold main_history.
  destruct (plot_map_value df_long year event) as [clicked|] eqn:Hplot; [|done].
  destruct (plot_map_value_inv _ _ _ _ Hplot) as (Hmap & Hclick & _).
  cbn [mbind result_bind]. unfold show_history.
  destruct (getitem df_long "country") as [names|]; [|done].
  cbn [mbind result_bind].
  destruct (eq_column names (country_to_show clicked)) as [mask|]; [|done].
  cbn [mbind result_bind]. intros [= <-]. cbn [history_country].
  split; [exact Hmap|]. unfold country_to_show. destruct (truthy clicked) eqn:E.
  - split; [exact E|by right].
  - split; [reflexivity|by left].
Qed.

Lemma main_history_country_witness :
  let df_long :=
    [ ("country", [VStr "France"; VStr "Spain"]);
      ("ISO2", [VStr "FR"; VStr "ES"]);
      ("year", [VInt 2024; VInt 2024]);
      ("hours", [VFloat (358 # 10); VFloat (363 # 10)]) ] in
  let cleared := PDict [("selection", PDict [("country_click", PList [])])] in
  main_history df_long 2024 cleared
  = Ok (HistoryChart (PStr "France")
          [ ("country", [VStr "France"]); ("ISO2", [VStr "FR"]);
            ("year", [VInt 2024]); ("hours", [VFloat (358 # 10)]) ]) /\
  truthy (PStr "France") = true.
Proof.
  intros df_long cleared.
  assert (H : main_history df_long 2024 cleared
    = Ok (HistoryChart (PStr "France")
          [ ("country", [VStr "France"]); ("ISO2", [VStr "FR"]);
            ("year", [VInt 2024]); ("hours", [VFloat (358 # 10)]) ]))
    by (vm_compute; reflexivity).
  split; [exact H|].
  exact (proj1 (proj2 (main_history_country df_long 2024 cleared _ H))).
Defined.
